(** * Chrome history MCP server: a shallow embedding and its properties

    The development follows the two source files of the repository:

    - [src/chrome-analyzer.js], the data provider (module [ChromeAnalyzer]):
      profile discovery, the SQLite queries over the [urls] and [visits]
      tables, and the bookmark-tree traversal;
    - [src/mcp-server.js], the protocol layer (module [McpServer]): the tool
      registry answered to ListTools and the CallTool dispatcher.

    Modelling conventions.

    - The values of a tool-argument mapping are the primitives of
      [Js.JsVal], which is what the input schemas declare (strings, numbers,
      booleans); nested arrays and objects are not modelled.  A number
      [JNum n] is the JavaScript number whose value is the integer [n];
      fractional numbers, NaN and the infinities are not values of the
      model (NaN appears as [None] where the source computes one).  An
      integer that reaches JavaScript from a 64-bit column is rounded to
      a double ([Js.to_double]), and a number is printed as JavaScript
      prints it ([Js.number_to_string]).  A string is the sequence of
      bytes of its UTF-8 encoding: [trim] strips the white space of
      ECMAScript; [toLowerCase] folds the letters A-Z only, so it is the
      source's [toLowerCase] on ASCII strings, which the statements that
      depend on it assume.
    - Asynchronous functions run to completion one at a time, so a promise
      is modelled by its outcome: a computation in the monad [Eff.M] either
      returns a value or throws, and threads the module-level state of the
      data provider.  Next to the three cached paths of the source that
      state carries a trace of the provider functions called, which the
      source does not have; it only serves to state that a function was or
      was not called.
    - A SQL statement with its bound parameters is represented by what it
      means on the two tables it reads, [urls] and [visits]: LIKE, the
      comparisons with NULL, ORDER BY, LIMIT and the aggregates follow
      SQLite's documented behaviour.  The order among rows with equal sort
      keys is the one the sort leaves; no statement depends on it.
    - What the JavaScript runtime, the file system and the SQLite engine
      contribute beyond that (the clock, date parsing and printing, URL
      parsing, the files on disk) is gathered in the record [World]; every
      theorem holds for all worlds. *)

From Stdlib Require Import ZArith List Ascii String Lia Bool.
From Stdlib Require Import Sorting.Sorted Sorting.Permutation.
From stdpp Require Import base gmap strings list sorting pretty.

Local Open Scope Z_scope.

(** ** JavaScript primitives and string operations *)

Module Js.

Inductive JsVal : Type :=
| JUndefined
| JNull
| JBool (b : bool)
| JNum (n : Z)
| JStr (s : string).

(** ToBoolean. *)
Definition truthy (v : JsVal) : bool :=
  match v with
  | JUndefined | JNull => false
  | JBool b => b
  | JNum n => negb (n =? 0)
  | JStr s => negb (String.eqb s "")
  end.

(** [a || b]. *)
Definition or_else (a b : JsVal) : JsVal := if truthy a then a else b.

(** A parameter with a default value: the default replaces [undefined]
    only. *)
Definition default_param (v d : JsVal) : JsVal :=
  match v with JUndefined => d | _ => v end.

(** The quotient [q] with remainder [r] by [ulp], rounded to the nearest
    integer, a tie going to the even one. *)
Definition nearest (q r ulp : Z) : Z :=
  if 2 * r <? ulp then q
  else if ulp <? 2 * r then q + 1
  else if Z.even q then q else q + 1.

(** The double nearest to an integer, ties going to the even
    significand: what an integer of a 64-bit column, or the result of an
    integer computation, is as a JavaScript number.  (Magnitudes below
    [2 ^ 1024]; there is no infinity.) *)
Definition to_double (n : Z) : Z :=
  let m := Z.abs n in
  if m <? 2 ^ 53 then n
  else
    let ulp := 2 ^ (Z.log2 m - 52) in
    Z.sgn n * (nearest (m / ulp) (m mod ulp) ulp * ulp).

(** Number::toString picks the decimal with the fewest significant
    digits that still denotes the same double, the closest one if there
    are several.  [round_trip_at m j] is that choice among the multiples
    of [10 ^ j], if one of them denotes the double of [m]. *)
Definition round_trip_at (m j : Z) : option Z :=
  let p := 10 ^ j in
  let lo := m / p * p in
  let hi := lo + p in
  let same v := to_double v =? to_double m in
  match same lo, same hi with
  | true, true =>
      if m - lo <? hi - m then Some lo
      else if hi - m <? m - lo then Some hi
      else if Z.even (m / p) then Some lo else Some hi
  | true, false => Some lo
  | false, true => Some hi
  | false, false => None
  end.

(** The first success from [10 ^ j] downwards: the most trailing zeros,
    that is, the fewest significant digits. *)
Fixpoint shortest_from (m : Z) (j : nat) : Z :=
  match round_trip_at m (Z.of_nat j) with
  | Some v => v
  | None =>
      match j with
      | O => m
      | S j' => shortest_from m j'
      end
  end.

Fixpoint strip_zeros (s : string) : string :=
  match s with
  | EmptyString => EmptyString
  | String c s' =>
      match strip_zeros s' with
      | EmptyString =>
          if Ascii.eqb c "0" then EmptyString else String c EmptyString
      | t => String c t
      end
  end.

(** [d.ddde+x] for a number of more than 21 digits. *)
Definition exponent_form (digits : string) : string :=
  let n := Z.of_nat (String.length digits) in
  match strip_zeros digits with
  | String d EmptyString => String d EmptyString +:+ "e+" +:+ pretty (n - 1)
  | String d rest =>
      String d EmptyString +:+ "." +:+ rest +:+ "e+" +:+ pretty (n - 1)
  | EmptyString => "0"
  end.

(** Number::toString (radix 10) on an integer-valued number.  Up to
    [2 ^ 53] every integer is a double and prints with all its digits;
    above, the digits are the shortest that denote the double, filled
    with zeros up to 21 digits and in exponent form beyond. *)
Definition number_to_string (n : Z) : string :=
  if Z.abs n <=? 2 ^ 53 then pretty n
  else
    let m := Z.abs n in
    let digits := pretty (shortest_from m (String.length (pretty m))) in
    (if n <? 0 then "-" else "")
    +:+ (if (String.length digits <=? 21)%nat then digits
         else exponent_form digits).

(** ToString, as applied by template literals and by [+] with a string. *)
Definition to_string (v : JsVal) : string :=
  match v with
  | JUndefined => "undefined"
  | JNull => "null"
  | JBool true => "true"
  | JBool false => "false"
  | JNum n => number_to_string n
  | JStr s => s
  end.

(** [a !== false]. *)
Definition strict_ne_false (v : JsVal) : bool :=
  match v with JBool false => false | _ => true end.

(** [n === v] for a number [n]. *)
Definition strict_eq_num (n : Z) (v : JsVal) : bool :=
  match v with JNum m => n =? m | _ => false end.

(** ToNumber; [None] is NaN.  The numeric reading of a string is the
    runtime's. *)
Definition to_number (string_to_number : string -> option Z) (v : JsVal)
  : option Z :=
  match v with
  | JUndefined => None
  | JNull => Some 0
  | JBool b => Some (if b then 1 else 0)
  | JNum n => Some n
  | JStr s => string_to_number s
  end.

(** TimeClip: a Date holds a time value of magnitude at most 8.64e15 ms,
    anything else is an invalid Date whose [getTime()] is NaN. *)
Definition time_clip (t : Z) : option Z :=
  if Z.abs t <=? 8640000000000000 then Some t else None.

Definition is_upper (c : ascii) : bool :=
  ((65 <=? N_of_ascii c) && (N_of_ascii c <=? 90))%N.

Definition lower_ascii (c : ascii) : ascii :=
  if is_upper c then ascii_of_N (N_of_ascii c + 32) else c.

Fixpoint toLowerCase (s : string) : string :=
  match s with
  | EmptyString => EmptyString
  | String c s' => String (lower_ascii c) (toLowerCase s')
  end.

(** The ASCII white space. *)
Definition is_white_space (c : ascii) : bool :=
  match N_of_ascii c with
  | 9%N | 10%N | 11%N | 12%N | 13%N | 32%N => true
  | _ => false
  end.

Definition utf8 (bytes : list Z) : string :=
  fold_right (fun b s => String (ascii_of_N (Z.to_N b)) s) EmptyString bytes.

(** The code points [String.prototype.trim] strips, WhiteSpace and
    LineTerminator of ECMAScript, each in its UTF-8 encoding. *)
Definition white_space : list string :=
  [ utf8 [9]; utf8 [10]; utf8 [11]; utf8 [12]; utf8 [13]; utf8 [32];
    (* U+00A0 *) utf8 [194; 160];
    (* U+1680 *) utf8 [225; 154; 128];
    (* U+2000 to U+200A *)
    utf8 [226; 128; 128]; utf8 [226; 128; 129]; utf8 [226; 128; 130];
    utf8 [226; 128; 131]; utf8 [226; 128; 132]; utf8 [226; 128; 133];
    utf8 [226; 128; 134]; utf8 [226; 128; 135]; utf8 [226; 128; 136];
    utf8 [226; 128; 137]; utf8 [226; 128; 138];
    (* U+2028, U+2029 *) utf8 [226; 128; 168]; utf8 [226; 128; 169];
    (* U+202F *) utf8 [226; 128; 175];
    (* U+205F *) utf8 [226; 129; 159];
    (* U+3000 *) utf8 [227; 128; 128];
    (* U+FEFF *) utf8 [239; 187; 191] ].

(** [s] without the prefix [p], when it starts with it. *)
Fixpoint strip_prefix (p s : string) : option string :=
  match p, s with
  | EmptyString, _ => Some s
  | String a p', String b s' =>
      if Ascii.eqb a b then strip_prefix p' s' else None
  | String _ _, EmptyString => None
  end.

(** [s] without the first of [prefixes] it starts with. *)
Definition strip_any (prefixes : list string) (s : string) : option string :=
  fold_right
    (fun p found =>
       match strip_prefix p s with
       | Some rest => Some rest
       | None => found
       end)
    None prefixes.

(** Strips leading occurrences of [prefixes], at most [fuel] of them. *)
Fixpoint strip_leading (prefixes : list string) (fuel : nat) (s : string)
  : string :=
  match fuel with
  | O => s
  | S fuel' =>
      match strip_any prefixes s with
      | Some rest => strip_leading prefixes fuel' rest
      | None => s
      end
  end.

Definition trimStart (s : string) : string :=
  strip_leading white_space (String.length s) s.

(** The same from the end, on the reversed string. *)
Definition trimEnd (s : string) : string :=
  String.rev
    (strip_leading (List.map String.rev white_space) (String.length s)
       (String.rev s)).

Definition trim (s : string) : string := trimEnd (trimStart s).

Fixpoint startsWith (s t : string) : bool :=
  match t, s with
  | EmptyString, _ => true
  | String _ _, EmptyString => false
  | String b t', String a s' => Ascii.eqb a b && startsWith s' t'
  end.

(** [s.includes(t)]. *)
Fixpoint includes (s t : string) : bool :=
  startsWith s t
  || match s with
     | EmptyString => false
     | String _ s' => includes s' t
     end.

(** [parts.join(sep)]. *)
Fixpoint join (sep : string) (parts : list string) : string :=
  match parts with
  | [] => ""
  | [p] => p
  | p :: rest => p +:+ sep +:+ join sep rest
  end.

End Js.

Export Js.

(** ** The SQLite operators the queries use *)

Module Sql.

(** A value bound to a [?] placeholder. *)
Inductive SqlVal : Type :=
| SqlNull
| SqlInt (n : Z)
| SqlText (s : string).

(** How the driver binds a JavaScript value: booleans as integers,
    numbers as numbers (INTEGER when they fit 32 bits, REAL otherwise: an
    integer-valued REAL compares and counts as the integer, within the
    64-bit range), strings as text, [null] and a missing value as NULL. *)
Definition bind (v : JsVal) : SqlVal :=
  match v with
  | JUndefined | JNull => SqlNull
  | JBool b => SqlInt (if b then 1 else 0)
  | JNum n => SqlInt n
  | JStr s => SqlText s
  end.

Definition like_char_eq (a b : ascii) : bool :=
  Ascii.eqb (lower_ascii a) (lower_ascii b).

(** [s LIKE pattern] with no ESCAPE clause: [%] matches any run of
    characters, [_] any single character, every other character itself
    up to ASCII case. *)
Fixpoint like (pattern : string) : string -> bool :=
  match pattern with
  | EmptyString =>
      fun s => match s with EmptyString => true | String _ _ => false end
  | String c p' =>
      if Ascii.eqb c "%"%char then
        fix any (s : string) : bool :=
          like p' s
          || match s with
             | EmptyString => false
             | String _ s' => any s'
             end
      else if Ascii.eqb c "_"%char then
        fun s =>
          match s with
          | EmptyString => false
          | String _ s' => like p' s'
          end
      else
        fun s =>
          match s with
          | EmptyString => false
          | String d s' => like_char_eq c d && like p' s'
          end
  end.

(** [column LIKE ?] with a text pattern: a NULL column is not a match. *)
Definition like_col (column : option string) (pattern : string) : bool :=
  match column with
  | Some s => like pattern s
  | None => false
  end.

(** [column >= ?] and [column <= ?] on an integer column, the placeholder
    bound to a computed number: NaN is stored as NULL, and a comparison
    with NULL is not true. *)
Definition ge_col (column : Z) (param : option Z) : bool :=
  match param with
  | Some n => n <=? column
  | None => false
  end.

Definition le_col (column : Z) (param : option Z) : bool :=
  match param with
  | Some n => column <=? n
  | None => false
  end.

(** [LIMIT ?]: a negative limit is no limit; a value that is not an
    integer and cannot be read as one without loss is a datatype
    mismatch, and so is a number of magnitude [2 ^ 63] or more, which
    does not fit the engine's integers.  [integer_of_text] is the
    engine's reading of a text operand. *)
Definition limit {A : Type} (integer_of_text : string -> option Z)
    (param : SqlVal) (rows : list A) : string + list A :=
  let cut (n : Z) := if n <? 0 then rows else firstn (Z.to_nat n) rows in
  match param with
  | SqlInt n =>
      if Z.abs n <? 2 ^ 63 then inr (cut n)
      else inl "SQLITE_MISMATCH: datatype mismatch"
  | SqlText s =>
      match integer_of_text s with
      | Some n => inr (cut n)
      | None => inl "SQLITE_MISMATCH: datatype mismatch"
      end
  | SqlNull => inl "SQLITE_MISMATCH: datatype mismatch"
  end.

(** [strftime('%s', '1601-01-01')]. *)
Definition epoch_1601_s : Z := -11644473600.

(** [t/1000000 + strftime('%s', '1601-01-01')]: integer division
    truncates. *)
Definition unix_seconds (chrome_time : Z) : Z :=
  Z.quot chrome_time 1000000 + epoch_1601_s.

(** MIN and MAX over text, by byte order; NULL over no rows. *)
Definition text_min (a b : string) : string :=
  if String.leb a b then a else b.

Definition text_max (a b : string) : string :=
  if String.leb a b then b else a.

Definition agg (f : string -> string -> string) (l : list string)
  : option string :=
  match l with
  | [] => None
  | x :: rest => Some (fold_left f rest x)
  end.

(** SUM over integers; NULL over no rows. *)
Definition sum (l : list Z) : option Z :=
  match l with
  | [] => None
  | _ => Some (fold_left Z.add l 0)
  end.

End Sql.

Export Sql.

(** ** Computations that may throw and that thread the provider's state *)

Module Eff.

(** The reason codes of the protocol's error class. *)
Inductive ErrorCode : Type :=
| ConnectionClosed
| RequestTimeout
| ParseError
| InvalidRequest
| MethodNotFound
| InvalidParams
| InternalError.

(** Thrown values: a plain [Error], a [TypeError] raised by the runtime,
    and the protocol's [McpError]. *)
Inductive Exn : Type :=
| Error (message : string)
| TypeError (message : string)
| McpError (code : ErrorCode) (message : string).

(** [error.message]. *)
Definition message (e : Exn) : string :=
  match e with
  | Error m | TypeError m | McpError _ m => m
  end.

Definition M (S A : Type) : Type := S -> (Exn + A) * S.

Definition ret {S A} (a : A) : M S A := fun st => (inr a, st).

Definition bind {S A B} (c : M S A) (k : A -> M S B) : M S B :=
  fun st =>
    match c st with
    | (inr a, st') => k a st'
    | (inl e, st') => (inl e, st')
    end.

Definition throw {S A} (e : Exn) : M S A := fun st => (inl e, st).

(** [try { body } catch (error) { handler }]. *)
Definition try_catch {S A} (body : M S A) (handler : Exn -> M S A)
  : M S A :=
  fun st =>
    match body st with
    | (inr a, st') => (inr a, st')
    | (inl e, st') => handler e st'
    end.

Definition get {S} : M S S := fun st => (inr st, st).

Definition modify {S} (f : S -> S) : M S unit := fun st => (inr tt, f st).

End Eff.

Export Eff.

Notation "'let*' x ':=' c 'in' k" := (Eff.bind c (fun x => k))
  (at level 10, x name, c at level 100, k at level 200).
Notation "c ';;' k" := (Eff.bind c (fun _ => k))
  (at level 100, k at level 200, right associativity).

(** ** chrome-analyzer.js *)

Module ChromeAnalyzer.

(** *** The history store *)

(** A row of the [urls] table; [title] may be NULL. *)
Record UrlsRow : Type := {
  urls_id : Z;
  urls_url : string;
  urls_title : option string;
  urls_visit_count : Z;
  urls_last_visit_time : Z
}.

(** A row of the [visits] table; [visits_url] refers to [urls_id]. *)
Record VisitsRow : Type := {
  visits_url : Z;
  visits_visit_time : Z
}.

Record Database : Type := {
  urls : list UrlsRow;
  visits : list VisitsRow
}.

(** What happens when the History file at a path is opened read-only and
    queried. *)
Inductive HistoryFile : Type :=
| OpenFails (msg : string)
| QueryFails (msg : string)
| Opens (db : Database).

(** *** The bookmark file *)

(** A node of the parsed Bookmarks JSON; an absent property is [None]. *)
#[local] Unset Elimination Schemes.
Inductive BookmarkNode : Type :=
  Node {
    node_type : option string;
    node_name : option string;
    node_url : option string;
    node_date_added : option string;
    node_children : option (list BookmarkNode)
  }.
#[local] Set Elimination Schemes.

(** The parsed file: [roots] maps root names to nodes, in the order of
    [Object.entries]. *)
Record BookmarksData : Type := {
  roots : option (list (string * BookmarkNode))
}.

(** What reading and parsing the Bookmarks file at a path gives. *)
Inductive BookmarksFile : Type :=
| NoEntry
| ReadFails (msg : string)
| Malformed
| Parsed (data : BookmarksData).

(** *** The environment *)

Record World : Type := {
  (** [CHROME_PATHS[os.platform()] || []] *)
  possiblePaths : list string;
  (** [fs.access(path)] succeeds *)
  fs_access : string -> bool;
  history_file : string -> HistoryFile;
  bookmarks_file : string -> BookmarksFile;
  (** [Date.now()], milliseconds since 1970 *)
  date_now : Z;
  (** [new Date(s).getTime()]; [None] is NaN (an invalid date) *)
  date_parse : string -> option Z;
  (** ToNumber on a string; [None] is NaN *)
  string_to_number : string -> option Z;
  (** [datetime(seconds, 'unixepoch')] *)
  sql_datetime : Z -> string;
  (** the engine's integer reading of a text LIMIT operand *)
  sql_integer_of_text : string -> option Z;
  (** [new URL(s).hostname]; [None] when the constructor throws *)
  url_hostname : string -> option string;
  (** [new Date(parseInt(date_added) / 1000)], as a time value *)
  date_of_date_added : option string -> option Z;
  (** [n.toLocaleString()] *)
  toLocaleString : Z -> string
}.

(** *** Arguments and module state *)

(** The [options] argument of [searchHistory]. *)
Record SearchOptions : Type := {
  startDate : JsVal;
  endDate : JsVal;
  limit : JsVal
}.

(** [options = {}]. *)
Definition no_options : SearchOptions :=
  {| startDate := JUndefined; endDate := JUndefined;
     limit := JUndefined |}.

(** The exported functions of the provider with the arguments they
    were given, for the call trace. *)
Inductive Call : Type :=
| CallLocateChromeProfile
| CallQueryHistory
| CallSearchHistory (searchQuery : JsVal) (options : SearchOptions)
| CallReadBookmarks
| CallGetBookmarks
| CallGetRecentBrowsing (hours limit includeDetails : JsVal)
| CallGetHistoryStats.

(** The three cached paths of the module, and (not in the source, for
    stating which provider functions ran) the trace of calls made so
    far, most recent first. *)
Record ModuleState : Type := {
  chromeProfilePath : option string;
  historyDbPath : option string;
  bookmarksPath : option string;
  trace : list Call
}.

Definition initial_state : ModuleState :=
  {| chromeProfilePath := None; historyDbPath := None;
     bookmarksPath := None; trace := [] |}.

Definition called (c : Call) : M ModuleState unit :=
  modify (fun st =>
    {| chromeProfilePath := chromeProfilePath st;
       historyDbPath := historyDbPath st;
       bookmarksPath := bookmarksPath st;
       trace := c :: trace st |}).

Definition set_paths (chromePath historyPath bookmarksFilePath : string)
  : M ModuleState unit :=
  modify (fun st =>
    {| chromeProfilePath := Some chromePath;
       historyDbPath := Some historyPath;
       bookmarksPath := Some bookmarksFilePath;
       trace := trace st |}).

(** A double-quote character, for messages that quote a name. *)
Definition dq : string := String "034"%char EmptyString.

(** [path.join(dir, file)]. *)
Definition path_join (dir file : string) : string := dir +:+ "/" +:+ file.

(** [!p] for a cached path. *)
Definition unset (p : option string) : bool :=
  match p with
  | None => true
  | Some s => String.eqb s ""
  end.

Section Provider.

Variable w : World.

(** The loop of [locateChromeProfile] over the remaining paths. *)
Fixpoint locate_in (paths : list string) : M ModuleState string :=
  match paths with
  | [] =>
      throw (Error
        ("Chrome installation not found. Searched paths: "
         +:+ Js.join ", " (possiblePaths w) +:+ String "010"
         "Please ensure Chrome is installed and has been run at least once."))
  | chromePath :: rest =>
      if fs_access w chromePath then
        let historyPath := path_join chromePath "History" in
        let bookmarksFilePath := path_join chromePath "Bookmarks" in
        if fs_access w historyPath then
          set_paths chromePath historyPath bookmarksFilePath;;
          ret chromePath
        else if fs_access w bookmarksFilePath then
          set_paths chromePath historyPath bookmarksFilePath;;
          ret chromePath
        else locate_in rest
      else locate_in rest
  end.

Definition locateChromeProfile : M ModuleState string :=
  called CallLocateChromeProfile;;
  locate_in (possiblePaths w).

Definition ensureInitialized : M ModuleState unit :=
  let* st := get in
  if unset (chromeProfilePath st) then
    locateChromeProfile;; ret tt
  else ret tt.

(** [queryHistory(query, params)].  The SQL text with its bound
    parameters is represented by its meaning: a function from the
    database to the rows, or to the engine's error message. *)
Definition queryHistory {A : Type} (query : Database -> string + list A)
  : M ModuleState (list A) :=
  called CallQueryHistory;;
  ensureInitialized;;
  let* st := get in
  match historyDbPath st with
  | None => throw (Error "History database path not found")
  | Some path =>
      if String.eqb path "" then
        throw (Error "History database path not found")
      else
        match history_file w path with
        | OpenFails msg =>
            throw (Error
              ("Failed to open Chrome History database: " +:+ msg))
        | QueryFails msg =>
            throw (Error ("Database query failed: " +:+ msg))
        | Opens db =>
            match query db with
            | inl msg => throw (Error ("Database query failed: " +:+ msg))
            | inr rows => ret rows
            end
        end
  end.

(** *** searchHistory *)

(** [new Date('1601-01-01').getTime()]. *)
Definition epoch_1601_ms : Z := -11644473600000.

(** [(date.getTime() - new Date('1601-01-01').getTime()) * 1000]:
    a time value in Chrome's format, microseconds since 1601. *)
Definition chrome_timestamp (time : option Z) : option Z :=
  match time with
  | Some t => Some ((t - epoch_1601_ms) * 1000)
  | None => None
  end.

(** A row selected by [searchHistory], as the JavaScript object the
    driver builds: the two integer columns are numbers, that is
    doubles. *)
Record HistoryEntry : Type := {
  url : string;
  title : option string;
  visit_count : Z;
  last_visit_time : Z;
  last_visit_date : string
}.

(** One [AND ...] clause appended to the WHERE part, with the
    parameters pushed for it. *)
Inductive Clause : Type :=
| UrlOrTitleLike (url_pattern title_pattern : string)
| LastVisitGe (start_timestamp : option Z)
| LastVisitLe (end_timestamp : option Z).

Definition holds (row : UrlsRow) (c : Clause) : bool :=
  match c with
  | UrlOrTitleLike p1 p2 =>
      like_col (Some (urls_url row)) p1 || like_col (urls_title row) p2
  | LastVisitGe t => ge_col (urls_last_visit_time row) t
  | LastVisitLe t => le_col (urls_last_visit_time row) t
  end.

(** [ORDER BY urls.last_visit_time DESC]. *)
Definition by_last_visit_desc (a b : UrlsRow) : Prop :=
  urls_last_visit_time b <= urls_last_visit_time a.

#[global] Instance by_last_visit_desc_dec : RelDecision by_last_visit_desc :=
  fun a b => Z_le_dec (urls_last_visit_time b) (urls_last_visit_time a).

Definition select_entry (row : UrlsRow) : HistoryEntry :=
  {| url := urls_url row;
     title := urls_title row;
     visit_count := to_double (urls_visit_count row);
     last_visit_time := to_double (urls_last_visit_time row);
     last_visit_date :=
       sql_datetime w (unix_seconds (urls_last_visit_time row)) |}.

(** The SELECT of [searchHistory]: [FROM urls WHERE 1=1] and the
    clauses, ordered, limited. *)
Definition search_query (clauses : list Clause) (limit_param : SqlVal)
    (db : Database) : string + list HistoryEntry :=
  let matching :=
    List.filter (fun row => forallb (holds row) clauses) (urls db) in
  let ordered := merge_sort by_last_visit_desc matching in
  Sql.limit (sql_integer_of_text w) limit_param
    (List.map select_entry ordered).

(** [(new Date(startDate + 'T00:00:00').getTime()
      - new Date('1601-01-01').getTime()) * 1000]. *)
Definition startTimestamp (startDate : JsVal) : option Z :=
  chrome_timestamp (date_parse w (to_string startDate +:+ "T00:00:00")).

(** [(new Date(endDate + 'T23:59:59.999').getTime()
      - new Date('1601-01-01').getTime()) * 1000]. *)
Definition endTimestamp (endDate : JsVal) : option Z :=
  chrome_timestamp (date_parse w (to_string endDate +:+ "T23:59:59.999")).

(** [searchQuery && searchQuery.trim().length > 0]. *)
Definition hasSearchQuery (searchQuery : JsVal) : M ModuleState bool :=
  if truthy searchQuery then
    match searchQuery with
    | JStr s => ret (0 <? Z.of_nat (String.length (trim s)))
    | _ => throw (TypeError "searchQuery.trim is not a function")
    end
  else ret false.

Definition searchHistory (searchQuery : JsVal) (options : SearchOptions)
  : M ModuleState (list HistoryEntry) :=
  called (CallSearchHistory searchQuery options);;
  let limit := default_param (limit options) (JNum 50) in
  let* has := hasSearchQuery searchQuery in
  let clauses1 :=
    if has then
      [UrlOrTitleLike ("%" +:+ to_string searchQuery +:+ "%")
                      ("%" +:+ to_string searchQuery +:+ "%")]
    else [] in
  let clauses2 :=
    if truthy (startDate options) then
      clauses1 ++ [LastVisitGe (startTimestamp (startDate options))]
    else clauses1 in
  let clauses3 :=
    if truthy (endDate options) then
      clauses2 ++ [LastVisitLe (endTimestamp (endDate options))]
    else clauses2 in
  queryHistory (search_query clauses3 (Sql.bind limit)).

(** *** Bookmarks *)

Definition readBookmarks : M ModuleState BookmarksData :=
  called CallReadBookmarks;;
  ensureInitialized;;
  let* st := get in
  match bookmarksPath st with
  | None =>
      throw (Error
        ("Failed to read Chrome Bookmarks: The " +:+ dq +:+ "path" +:+ dq
         +:+ " argument must be of type string or an instance of Buffer or URL. Received null"))
  | Some path =>
      match bookmarks_file w path with
      | NoEntry =>
          throw (Error "Chrome Bookmarks file not found. Make sure Chrome has been run at least once.")
      | Malformed =>
          throw (Error "Failed to parse Chrome Bookmarks file. The file may be corrupted.")
      | ReadFails msg =>
          throw (Error ("Failed to read Chrome Bookmarks: " +:+ msg))
      | Parsed bookmarks => ret bookmarks
      end
  end.

(** A flattened bookmark. *)
Record Bookmark : Type := {
  bm_title : option string;
  bm_url : option string;
  dateAdded : option Z;
  folder : string
}.

(** [folderPath || 'Root']. *)
Definition folder_or_root (folderPath : string) : string :=
  if String.eqb folderPath "" then "Root" else folderPath.

Definition name_to_string (name : option string) : string :=
  match name with Some n => n | None => "undefined" end.

(** [folderPath ? `${folderPath}/${child.name}` : child.name], as the
    callee receives it: an [undefined] argument takes the default
    [''] of the parameter. *)
Definition newFolderPath (folderPath : string) (name : option string)
  : string :=
  if String.eqb folderPath "" then
    match name with Some n => n | None => "" end
  else folderPath +:+ "/" +:+ name_to_string name.

Definition is_type (t : string) (child : BookmarkNode) : bool :=
  match node_type child with
  | Some s => String.eqb s t
  | None => false
  end.

Fixpoint extractBookmarks (bookmarkNode : BookmarkNode)
    (folderPath : string) {struct bookmarkNode} : list Bookmark :=
  match bookmarkNode with
  | Node _ _ _ _ None => []
  | Node _ _ _ _ (Some children) =>
      (fix each (children : list BookmarkNode) : list Bookmark :=
         match children with
         | [] => []
         | child :: rest =>
             (if is_type "url" child then
                [ {| bm_title := node_name child;
                     bm_url := node_url child;
                     dateAdded :=
                       date_of_date_added w (node_date_added child);
                     folder := folder_or_root folderPath |} ]
              else if is_type "folder" child then
                extractBookmarks child
                  (newFolderPath folderPath (node_name child))
              else [])
             ++ each rest
         end) children
  end.

(** The loop of [getBookmarks] over [Object.entries(roots)]. *)
Definition root_bookmarks (entry : string * BookmarkNode)
  : list Bookmark :=
  let '(rootName, rootData) := entry in
  match node_children rootData with
  | Some _ => extractBookmarks rootData rootName
  | None => []
  end.

Definition in_folder (targetFolder : string) (bookmark : Bookmark)
  : bool :=
  includes (toLowerCase (folder bookmark)) (toLowerCase targetFolder).

(** The bookmarks of every root, in the order of the file. *)
Definition all_bookmarks (bookmarksData : BookmarksData)
  : list Bookmark :=
  match roots bookmarksData with
  | Some entries => flat_map root_bookmarks entries
  | None => []
  end.

(** [getBookmarks(targetFolder = null)]; [None] is [null]. *)
Definition getBookmarks (targetFolder : option string)
  : M ModuleState (list Bookmark) :=
  called CallGetBookmarks;;
  let* bookmarksData := readBookmarks in
  let allBookmarks := all_bookmarks bookmarksData in
  match targetFolder with
  | Some t =>
      if String.eqb t "" then ret allBookmarks
      else ret (List.filter (in_folder t) allBookmarks)
  | None => ret allBookmarks
  end.

(** *** getRecentBrowsing *)

(** A row of the join of [urls] with [visits], as selected. *)
Record VisitEntry : Type := {
  ve_url : string;
  ve_title : option string;
  ve_visit_count : Z;
  ve_last_visit_time : Z;
  ve_last_visit_date : string;
  ve_visit_time : Z;
  ve_visit_date : string
}.

(** [FROM urls INNER JOIN visits ON urls.id = visits.url]. *)
Definition urls_join_visits (db : Database)
  : list (UrlsRow * VisitsRow) :=
  flat_map
    (fun u =>
       List.map (fun v => (u, v))
         (List.filter (fun v => urls_id u =? visits_url v) (visits db)))
    (urls db).

(** [ORDER BY visits.visit_time DESC]. *)
Definition by_visit_desc (a b : UrlsRow * VisitsRow) : Prop :=
  visits_visit_time (snd b) <= visits_visit_time (snd a).

#[global] Instance by_visit_desc_dec : RelDecision by_visit_desc :=
  fun a b =>
    Z_le_dec (visits_visit_time (snd b)) (visits_visit_time (snd a)).

Definition select_visit (row : UrlsRow * VisitsRow) : VisitEntry :=
  let '(u, v) := row in
  {| ve_url := urls_url u;
     ve_title := urls_title u;
     ve_visit_count := urls_visit_count u;
     ve_last_visit_time := urls_last_visit_time u;
     ve_last_visit_date :=
       sql_datetime w (unix_seconds (urls_last_visit_time u));
     ve_visit_time := visits_visit_time v;
     ve_visit_date := sql_datetime w (unix_seconds (visits_visit_time v)) |}.

(** The SELECT of [getRecentBrowsing]:
    [WHERE visits.visit_time >= ? ORDER BY visits.visit_time DESC LIMIT ?]. *)
Definition recent_query (chromeTimestamp : option Z) (limit_param : SqlVal)
    (db : Database) : string + list VisitEntry :=
  let matching :=
    List.filter
      (fun row => ge_col (visits_visit_time (snd row)) chromeTimestamp)
      (urls_join_visits db) in
  let ordered := merge_sort by_visit_desc matching in
  Sql.limit (sql_integer_of_text w) limit_param
    (List.map select_visit ordered).

(** An element of the array [getRecentBrowsing] returns; [domain] is
    absent unless details were requested. *)
Record RecentEntry : Type := {
  re_url : string;
  re_title : string;
  re_last_visit_date : string;
  re_visit_count : Z;
  re_domain : option string
}.

(** [entry.title || 'Untitled'] on a column value. *)
Definition title_or_untitled (title : option string) : string :=
  match title with
  | Some t => if String.eqb t "" then "Untitled" else t
  | None => "Untitled"
  end.

(** The callback of [results.map].  [VisitEntry] keeps the columns as the
    engine has them; the one integer the callback copies is a JavaScript
    number, a double. *)
Definition process_entry (includeDetails : JsVal) (entry : VisitEntry)
  : RecentEntry :=
  {| re_url := ve_url entry;
     re_title := title_or_untitled (ve_title entry);
     re_last_visit_date := ve_visit_date entry;
     re_visit_count := to_double (ve_visit_count entry);
     re_domain :=
       if truthy includeDetails then
         match url_hostname w (ve_url entry) with
         | Some hostname => Some hostname
         | None => Some "Unknown"
         end
       else None |}.

(** [new Date(Date.now() - (hours * 60 * 60 * 1000)).getTime()]. *)
Definition hoursAgo (hours : JsVal) : option Z :=
  match to_number (string_to_number w) hours with
  | Some h => time_clip (date_now w - h * 60 * 60 * 1000)
  | None => None
  end.

Definition getRecentBrowsing (hours limit includeDetails : JsVal)
  : M ModuleState (list RecentEntry) :=
  called (CallGetRecentBrowsing hours limit includeDetails);;
  let hours := default_param hours (JNum 24) in
  let limit := default_param limit (JNum 50) in
  let includeDetails := default_param includeDetails (JBool true) in
  let chromeTimestamp := chrome_timestamp (hoursAgo hours) in
  let* results :=
    queryHistory (recent_query chromeTimestamp (Sql.bind limit)) in
  ret (List.map (process_entry includeDetails) results).

(** *** getHistoryStats *)

Record Stats : Type := {
  total_urls : Z;
  total_visits : option Z;
  earliest_visit : option string;
  latest_visit : option string
}.

(** The aggregate SELECT of [getHistoryStats] over
    [urls WHERE visit_count > 0]: always exactly one row. *)
Definition stats_query (db : Database) : string + list Stats :=
  let rows := List.filter (fun row => 0 <? urls_visit_count row) (urls db) in
  let dates :=
    List.map
      (fun row => sql_datetime w (unix_seconds (urls_last_visit_time row)))
      rows in
  inr [ {| total_urls := Z.of_nat (length rows);
           total_visits := Sql.sum (List.map urls_visit_count rows);
           earliest_visit := Sql.agg text_min dates;
           latest_visit := Sql.agg text_max dates |} ].

(** Returns [results[0]]; [None] is [undefined]. *)
Definition getHistoryStats : M ModuleState (option Stats) :=
  called CallGetHistoryStats;;
  let* results := queryHistory stats_query in
  ret (head results).

(** *** getMostVisitedSites *)

(** A row selected by [getMostVisitedSites], as the JavaScript object
    the driver builds. *)
Record SiteEntry : Type := {
  site_url : string;
  site_title : option string;
  site_visit_count : Z;
  site_last_visit_date : string
}.

(** [ORDER BY urls.visit_count DESC]. *)
Definition by_visit_count_desc (a b : UrlsRow) : Prop :=
  urls_visit_count b <= urls_visit_count a.

#[global] Instance by_visit_count_desc_dec : RelDecision by_visit_count_desc :=
  fun a b => Z_le_dec (urls_visit_count b) (urls_visit_count a).

Definition select_site (row : UrlsRow) : SiteEntry :=
  {| site_url := urls_url row;
     site_title := urls_title row;
     site_visit_count := to_double (urls_visit_count row);
     site_last_visit_date :=
       sql_datetime w (unix_seconds (urls_last_visit_time row)) |}.

(** The SELECT of [getMostVisitedSites]:
    [WHERE urls.visit_count > 0 ORDER BY urls.visit_count DESC LIMIT ?]. *)
Definition most_visited_query (limit_param : SqlVal) (db : Database)
  : string + list SiteEntry :=
  let visited :=
    List.filter (fun row => 0 <? urls_visit_count row) (urls db) in
  let ordered := merge_sort by_visit_count_desc visited in
  Sql.limit (sql_integer_of_text w) limit_param (List.map select_site ordered).

(** [getMostVisitedSites(limit = 20)]. *)
Definition getMostVisitedSites (limit : JsVal)
  : M ModuleState (list SiteEntry) :=
  let limit := default_param limit (JNum 20) in
  queryHistory (most_visited_query (Sql.bind limit)).

(** *** getHistoryByDateRange *)

(** An element of the array [getHistoryByDateRange] returns. *)
Record RangeEntry : Type := {
  rg_url : string;
  rg_title : string;
  rg_visit_date : string;
  rg_visit_count : Z;
  rg_transition : Z
}.

(** [FROM visits INNER JOIN urls ON visits.url = urls.id]. *)
Definition visits_join_urls (db : Database) : list (UrlsRow * VisitsRow) :=
  flat_map
    (fun v =>
       List.map (fun u => (u, v))
         (List.filter (fun u => visits_url v =? urls_id u) (urls db)))
    (visits db).

(** The SELECT of [getHistoryByDateRange]:
    [WHERE visits.visit_time >= ? AND visits.visit_time <= ?
     ORDER BY visits.visit_time DESC LIMIT ?]. *)
Definition range_query (startTimestamp endTimestamp : option Z)
    (limit_param : SqlVal) (db : Database)
  : string + list (UrlsRow * VisitsRow) :=
  let matching :=
    List.filter
      (fun row =>
         ge_col (visits_visit_time (snd row)) startTimestamp
         && le_col (visits_visit_time (snd row)) endTimestamp)
      (visits_join_urls db) in
  let ordered := merge_sort by_visit_desc matching in
  Sql.limit (sql_integer_of_text w) limit_param ordered.

(** The callback of [results.map].  The [transition] column of a visit is
    not part of [VisitsRow]; it is read through [transition].  The two
    integers it copies are JavaScript numbers, doubles. *)
Definition range_entry (transition : VisitsRow -> Z)
    (row : UrlsRow * VisitsRow) : RangeEntry :=
  let '(u, v) := row in
  {| rg_url := urls_url u;
     rg_title := title_or_untitled (urls_title u);
     rg_visit_date := sql_datetime w (unix_seconds (visits_visit_time v));
     rg_visit_count := to_double (urls_visit_count u);
     rg_transition := to_double (transition v) |}.

(** [getHistoryByDateRange(startDate, endDate, limit = 100)]: both dates
    are converted whether or not they are given. *)
Definition getHistoryByDateRange (transition : VisitsRow -> Z)
    (startDate endDate limit : JsVal) : M ModuleState (list RangeEntry) :=
  let limit := default_param limit (JNum 100) in
  let* results :=
    queryHistory
      (range_query (startTimestamp startDate) (endTimestamp endDate)
         (Sql.bind limit)) in
  ret (List.map (range_entry transition) results).

(** *** getProfileInfo *)






End Provider.

End ChromeAnalyzer.

Export ChromeAnalyzer.

(** ** mcp-server.js *)

Module McpServer.

(** *** The tool registry *)

(** A node of an input schema: an object with its properties, or a
    property with its declared kind, default, allowed values and
    bounds. *)
#[local] Unset Elimination Schemes.
Inductive SchemaNode : Type :=
| ObjectSchema (properties : list (string * SchemaNode))
    (required : option (list string))
| PropertySchema (type : string) (description : string)
    (enum : option (list string)) (default : option JsVal)
    (minimum maximum : option Z).
#[local] Set Elimination Schemes.

Record ToolDescriptor : Type := {
  name : string;
  description : string;
  inputSchema : SchemaNode
}.

Definition prop_schema (type description : string) : SchemaNode :=
  PropertySchema type description None None None None.

(** The [tools] array returned by the ListTools handler. *)
Definition tools : list ToolDescriptor :=
  [ {| name := "search_history";
       description := "Search browser history for specific terms or patterns";
       inputSchema :=
         ObjectSchema
           [ ("query", prop_schema "string" "Search query to find in browser history");
             ("start_date", prop_schema "string" "Start date for search (YYYY-MM-DD format)");
             ("end_date", prop_schema "string" "End date for search (YYYY-MM-DD format)");
             ("limit", PropertySchema "number" "Maximum number of results to return"
                         None (Some (JNum 50)) None None) ]
           (Some []) |};
    {| name := "get_bookmarks";
       description := "Retrieve and analyze browser bookmarks";
       inputSchema :=
         ObjectSchema
           [ ("folder", prop_schema "string" "Specific bookmark folder to search (optional)");
             ("include_urls", PropertySchema "boolean" "Whether to include full URLs in results"
                                None (Some (JBool true)) None None) ]
           None |};
    {| name := "analyze_browsing_patterns";
       description := "Analyze browsing patterns and generate insights";
       inputSchema :=
         ObjectSchema
           [ ("timeframe", PropertySchema "string" "Timeframe for analysis"
                             (Some ["day"; "week"; "month"; "year"])
                             (Some (JStr "week")) None None);
             ("include_domains", PropertySchema "boolean" "Include domain-level analysis"
                                   None (Some (JBool true)) None None) ]
           None |};
    {| name := "export_data";
       description := "Export browser history and bookmarks to various formats";
       inputSchema :=
         ObjectSchema
           [ ("format", PropertySchema "string" "Export format"
                          (Some ["json"; "csv"; "html"])
                          (Some (JStr "json")) None None);
             ("include_history", PropertySchema "boolean" "Include browsing history in export"
                                   None (Some (JBool true)) None None);
             ("include_bookmarks", PropertySchema "boolean" "Include bookmarks in export"
                                     None (Some (JBool true)) None None) ]
           None |};
    {| name := "get_recent_browsing";
       description := "Shows browsing activity from the last 24 hours with visit counts and timestamps";
       inputSchema :=
         ObjectSchema
           [ ("hours", PropertySchema "number" "Number of hours to look back (default: 24)"
                         None (Some (JNum 24)) (Some 1) (Some 168));
             ("limit", PropertySchema "number" "Maximum number of results to return"
                         None (Some (JNum 50)) (Some 1) (Some 500));
             ("include_visit_details", PropertySchema "boolean"
                         "Include detailed visit information like visit count"
                         None (Some (JBool true)) None None) ]
           None |};
    {| name := "get_history_stats";
       description := "Get statistics about Chrome history database including date ranges and total entries";
       inputSchema := ObjectSchema [] None |} ].

Definition registered_names : list string := List.map name tools.

(** The ListTools handler. *)
Definition listTools : M ModuleState (list ToolDescriptor) := ret tools.

(** The schema declared for a property of a tool. *)
Definition declared (tool property : string) : option SchemaNode :=
  match List.find (fun t => String.eqb (name t) tool) tools with
  | Some {| inputSchema := ObjectSchema properties _ |} =>
      match List.find (fun kv => String.eqb (fst kv) property) properties with
      | Some (_, node) => Some node
      | None => None
      end
  | _ => None
  end.

Definition declared_default (node : SchemaNode) : option JsVal :=
  match node with
  | PropertySchema _ _ _ d _ _ => d
  | ObjectSchema _ _ => None
  end.

Definition declared_bounds (node : SchemaNode) : option Z * option Z :=
  match node with
  | PropertySchema _ _ _ _ lo hi => (lo, hi)
  | ObjectSchema _ _ => (None, None)
  end.

(** *** Requests and results *)

Record CallToolRequest : Type := {
  req_name : string;
  (** [request.params.arguments]; [None] when the request has none *)
  req_arguments : option (gmap string JsVal)
}.

Record ContentBlock : Type := {
  type : string;
  text : string
}.

Record ToolResult : Type := {
  content : list ContentBlock
}.

(** [{ content: [ { type: 'text', text } ] }]. *)
Definition text_result (text : string) : ToolResult :=
  {| content := [ {| type := "text"; text := text |} ] |}.

(** [args.key]: reading a property of [undefined] throws. *)
Definition prop (args : option (gmap string JsVal)) (key : string)
  : M ModuleState JsVal :=
  match args with
  | None =>
      throw (TypeError
        ("Cannot read properties of undefined (reading '" +:+ key +:+ "')"))
  | Some m => ret (default JUndefined (m !! key))
  end.

Definition nl : string := String "010"%char EmptyString.

(** [a || b] on strings. *)
Definition str_or (a b : string) : string :=
  if String.eqb a "" then b else a.

Section Dispatcher.

Variable w : World.

(** *** search_history *)

(** [`\nDate range: ${startDate || 'beginning'} to ${endDate || 'present'}`]
    when either date is given. *)
Definition date_range_line (startDate endDate : JsVal) : string :=
  if truthy startDate || truthy endDate then
    nl +:+ "Date range: " +:+ to_string (or_else startDate (JStr "beginning"))
    +:+ " to " +:+ to_string (or_else endDate (JStr "present"))
  else "".

(** The text appended for one entry by the [forEach] callback. *)
Definition search_entry_text (entry : HistoryEntry) (index : Z) : string :=
  pretty (index + 1) +:+ ". " +:+ title_or_untitled (title entry) +:+ nl
  +:+ "   URL: " +:+ url entry +:+ nl
  +:+ "   Last visited: " +:+ last_visit_date entry +:+ nl
  +:+ "   Visit count: " +:+ number_to_string (visit_count entry) +:+ nl
  +:+ match url_hostname w (url entry) with
      | Some hostname => "   Domain: " +:+ hostname +:+ nl
      | None => ""
      end
  +:+ nl.

(** [entries.forEach((entry, index) => { resultText += ... })]. *)
Fixpoint forEach {A : Type} (body : A -> Z -> string) (entries : list A)
    (index : Z) (resultText : string) : string :=
  match entries with
  | [] => resultText
  | entry :: rest =>
      forEach body rest (index + 1) (resultText +:+ body entry index)
  end.

(** The text built from the rows of a successful search. *)
Definition search_text (query startDate endDate limit : JsVal)
    (searchResults : list HistoryEntry) : string :=
  let resultText :=
    if truthy query then
      "Search results for " +:+ dq +:+ to_string query +:+ dq +:+ ":"
      +:+ nl +:+ nl
    else "Browsing history:" +:+ nl +:+ nl in
  match searchResults with
  | [] =>
      resultText
      +:+ "No matching entries found in your browsing history."
      +:+ date_range_line startDate endDate
  | _ =>
      forEach search_entry_text searchResults 0 resultText
      +:+ nl +:+ "Total results: "
      +:+ pretty (Z.of_nat (length searchResults))
      +:+ (if strict_eq_num (Z.of_nat (length searchResults)) limit
           then " (limited to " +:+ to_string limit +:+ " entries)"
           else "")
      +:+ date_range_line startDate endDate
  end.

(** The text of the [catch] block. *)
Definition search_error_text (error : Exn) : string :=
  "Error searching history: " +:+ message error +:+ nl +:+ nl
  +:+ "This might occur if:" +:+ nl
  +:+ "- Chrome is not installed" +:+ nl
  +:+ "- Chrome profile cannot be accessed" +:+ nl
  +:+ "- History database is locked (Chrome is running)" +:+ nl
  +:+ "- Invalid date format (use YYYY-MM-DD)".

Definition search_history (args : option (gmap string JsVal))
  : M ModuleState ToolResult :=
  try_catch
    (let* q := prop args "query" in
     let query := or_else q (JStr "") in
     let* startDate := prop args "start_date" in
     let* endDate := prop args "end_date" in
     let* l := prop args "limit" in
     let limit := or_else l (JNum 100) in
     if negb (truthy query) && negb (truthy startDate)
        && negb (truthy endDate)
     then
       ret (text_result
         "Error: Please provide either a search query or a date range (or both)")
     else
       let* searchResults :=
         searchHistory w query
           {| startDate := startDate; endDate := endDate;
              limit := limit |} in
       ret (text_result
         (search_text query startDate endDate limit searchResults)))
    (fun error => ret (text_result (search_error_text error))).

(** *** The placeholder tools *)

Definition get_bookmarks (args : option (gmap string JsVal))
  : M ModuleState ToolResult :=
  ret (text_result
    ("Placeholder: Retrieving bookmarks" +:+ nl
     +:+ "This tool will read Chrome bookmarks and organize them by folders.")).

Definition analyze_browsing_patterns (args : option (gmap string JsVal))
  : M ModuleState ToolResult :=
  let* timeframe := prop args "timeframe" in
  ret (text_result
    ("Placeholder: Analyzing browsing patterns for "
     +:+ to_string (or_else timeframe (JStr "week")) +:+ nl
     +:+ "This tool will generate insights about browsing habits and frequently visited sites.")).

Definition export_data (args : option (gmap string JsVal))
  : M ModuleState ToolResult :=
  let* format := prop args "format" in
  ret (text_result
    ("Placeholder: Exporting data in "
     +:+ to_string (or_else format (JStr "json")) +:+ " format" +:+ nl
     +:+ "This tool will export browser data to the specified format.")).

(** *** get_recent_browsing *)

Definition recent_entry_text (includeDetails : bool) (entry : RecentEntry)
    (index : Z) : string :=
  pretty (index + 1) +:+ ". " +:+ str_or (re_title entry) "Untitled" +:+ nl
  +:+ "   URL: " +:+ re_url entry +:+ nl
  +:+ "   Last visited: " +:+ re_last_visit_date entry +:+ nl
  +:+ (if includeDetails then
         "   Visit count: " +:+ number_to_string (re_visit_count entry) +:+ nl
         +:+ match re_domain entry with
             | Some domain =>
                 if String.eqb domain "" then ""
                 else "   Domain: " +:+ domain +:+ nl
             | None => ""
             end
       else "")
  +:+ nl.

(** The text built from the rows of a successful query. *)
Definition recent_text (hours limit : JsVal) (includeDetails : bool)
    (recentBrowsing : list RecentEntry) : string :=
  let resultText :=
    "Recent browsing activity (last " +:+ to_string hours +:+ " hours):"
    +:+ nl +:+ nl in
  match recentBrowsing with
  | [] =>
      resultText
      +:+ "No browsing activity found in the specified timeframe."
  | _ =>
      forEach (recent_entry_text includeDetails) recentBrowsing 0
        resultText
      +:+ nl +:+ "Total entries: "
      +:+ pretty (Z.of_nat (length recentBrowsing))
      +:+ (if strict_eq_num (Z.of_nat (length recentBrowsing)) limit
           then " (limited to " +:+ to_string limit +:+ " results)"
           else "")
  end.

(** The text of the [catch] block. *)
Definition recent_error_text (error : Exn) : string :=
  "Error retrieving recent browsing activity: " +:+ message error
  +:+ nl +:+ nl
  +:+ "This might occur if:" +:+ nl
  +:+ "- Chrome is not installed" +:+ nl
  +:+ "- Chrome profile cannot be accessed" +:+ nl
  +:+ "- History database is locked (Chrome is running)".

Definition get_recent_browsing (args : option (gmap string JsVal))
  : M ModuleState ToolResult :=
  try_catch
    (let* h := prop args "hours" in
     let hours := or_else h (JNum 24) in
     let* l := prop args "limit" in
     let limit := or_else l (JNum 50) in
     let* d := prop args "include_visit_details" in
     let includeDetails := strict_ne_false d in
     let* recentBrowsing :=
       getRecentBrowsing w hours limit (JBool includeDetails) in
     ret (text_result
       (recent_text hours limit includeDetails recentBrowsing)))
    (fun error => ret (text_result (recent_error_text error))).

(** *** get_history_stats *)

(** [`${v}`] for a nullable text column. *)
Definition nullable_to_string (v : option string) : string :=
  match v with Some s => s | None => "null" end.

Definition stats_text (total_urls total_visits : string)
    (earliest_visit latest_visit : option string) : string :=
  "Chrome History Database Statistics:" +:+ nl +:+ nl
  +:+ "**Overview:**" +:+ nl
  +:+ "- Total unique URLs: " +:+ total_urls +:+ nl
  +:+ "- Total visits: " +:+ total_visits +:+ nl +:+ nl
  +:+ "**Date Range:**" +:+ nl
  +:+ "- Earliest visit: " +:+ nullable_to_string earliest_visit +:+ nl
  +:+ "- Latest visit: " +:+ nullable_to_string latest_visit +:+ nl +:+ nl
  +:+ "**Note:** This shows the full range of data available in your Chrome history database."
  +:+ nl
  +:+ "If you're not seeing results for specific dates, they might be outside this range.".

Definition get_history_stats (args : option (gmap string JsVal))
  : M ModuleState ToolResult :=
  try_catch
    (let* stats := getHistoryStats w in
     match stats with
     | None =>
         throw (TypeError
           "Cannot read properties of undefined (reading 'total_urls')")
     | Some stats =>
         let urls_text := toLocaleString w (total_urls stats) in
         match total_visits stats with
         | None =>
             throw (TypeError
               "Cannot read properties of null (reading 'toLocaleString')")
         | Some visits =>
             ret (text_result
               (stats_text urls_text (toLocaleString w visits)
                  (earliest_visit stats) (latest_visit stats)))
         end
     end)
    (fun error =>
       ret (text_result
         ("Error getting history statistics: " +:+ message error))).

(** *** The CallTool handler *)

Definition callTool (request : CallToolRequest)
  : M ModuleState ToolResult :=
  let name := req_name request in
  let args := req_arguments request in
  if String.eqb name "search_history" then search_history args
  else if String.eqb name "get_bookmarks" then get_bookmarks args
  else if String.eqb name "analyze_browsing_patterns" then
    analyze_browsing_patterns args
  else if String.eqb name "export_data" then export_data args
  else if String.eqb name "get_recent_browsing" then
    get_recent_browsing args
  else if String.eqb name "get_history_stats" then get_history_stats args
  else throw (McpError MethodNotFound ("Unknown tool: " +:+ name)).

End Dispatcher.

End McpServer.

Export McpServer.


(** ** Vocabulary of the statements *)

(** [t] occurs in [s] as a contiguous substring. *)
Definition substring_of (t s : string) : Prop :=
  exists pre post, s = pre +:+ t +:+ post.

(** [q] occurs in [s] up to ASCII case. *)
Definition contains_ci (s q : string) : Prop :=
  exists pre m post,
    s = pre +:+ m +:+ post /\ toLowerCase m = toLowerCase q.

(** The same, decided the way the source decides folder matches. *)
Definition includes_ci (s q : string) : bool :=
  includes (toLowerCase s) (toLowerCase q).


(** The query keeps some text when trimmed: [q.trim().length > 0]. *)
Definition has_text (q : string) : bool := negb (String.eqb (trim q) "").


(** Every character of [s] is an ASCII white space; [s.trim()] is then
    empty. *)
Fixpoint blank (s : string) : bool :=
  match s with
  | EmptyString => true
  | String c s' => is_white_space c && blank s'
  end.



(** A candidate directory is taken as the profile when it is accessible
    and holds a History or a Bookmarks file. *)
Definition accepts (w : World) (p : string) : bool :=
  fs_access w p
  && (fs_access w (path_join p "History")
      || fs_access w (path_join p "Bookmarks")).


(** The first candidate directory that [locateChromeProfile] accepts. *)
Definition found_profile (w : World) : option string :=
  List.find (accepts w) (possiblePaths w).

(** The state once a profile directory has been recorded. *)
Definition with_profile (st : ModuleState) (p : string) : ModuleState :=
  {| chromeProfilePath := Some p;
     historyDbPath := Some (path_join p "History");
     bookmarksPath := Some (path_join p "Bookmarks");
     trace := trace st |}.

(** The History path in force once [ensureInitialized] has run. *)
Definition history_path (w : World) (st : ModuleState) : option string :=
  if unset (chromeProfilePath st) then
    option_map (fun p => path_join p "History") (found_profile w)
  else historyDbPath st.

(** The database a query issued in state [st] runs against, when the
    profile is found and the History file opens and answers. *)
Definition opened (w : World) (st : ModuleState) : option Database :=
  match history_path w st with
  | Some path =>
      if String.eqb path "" then None
      else
        match history_file w path with
        | Opens db => Some db
        | OpenFails _ | QueryFails _ => None
        end
  | None => None
  end.


(** *** The bookmark traversal as the specification words it *)

(** A bookmark tree in which every node is a folder or a url leaf. *)
#[local] Unset Elimination Schemes.
Inductive Tree : Type :=
| Folder (name : string) (children : list Tree)
| Leaf (name url : string) (date_added : option string).
#[local] Set Elimination Schemes.

(** Its form in the Bookmarks file. *)
Fixpoint to_node (t : Tree) : BookmarkNode :=
  match t with
  | Folder name children =>
      {| node_type := Some "folder"; node_name := Some name;
         node_url := None; node_date_added := None;
         node_children := Some (List.map to_node children) |}
  | Leaf name url date_added =>
      {| node_type := Some "url"; node_name := Some name;
         node_url := Some url; node_date_added := date_added;
         node_children := None |}
  end.

(** A folder contributes its name to the path of its descendants. *)
Definition path_with (pathPrefix name : string) : string :=
  if String.eqb pathPrefix "" then name else pathPrefix +:+ "/" +:+ name.


(** What one child contributes to [extractBookmarks]. *)
Definition visit_child (w : World) (folderPath : string)
    (child : BookmarkNode) : list Bookmark :=
  if is_type "url" child then
    [ {| bm_title := node_name child; bm_url := node_url child;
         dateAdded := date_of_date_added w (node_date_added child);
         folder := folder_or_root folderPath |} ]
  else if is_type "folder" child then
    extractBookmarks w child (newFolderPath folderPath (node_name child))
  else [].

(** The tree of the specification's example, for any [date_added] of its
    one leaf. *)
Definition example_bookmarks (date_added : option string) : BookmarksData :=
  {| roots :=
       Some
         [ ("bookmark_bar",
            {| node_type := None; node_name := None; node_url := None;
               node_date_added := None;
               node_children :=
                 Some
                   [ to_node
                       (Folder "Work"
                          [Leaf "X" "http://x" date_added]) ] |}) ] |}.

(** *** The text of a search *)

(** The block of one entry in the answer of search_history, under its
    ordinal: title (or [Untitled]), URL, date, visit count and, when the
    URL parses, domain. *)
Definition entry_block (w : World) (ordinal : Z) (e : HistoryEntry)
  : string :=
  pretty ordinal +:+ ". " +:+ title_or_untitled (title e) +:+ nl
  +:+ "   URL: " +:+ url e +:+ nl
  +:+ "   Last visited: " +:+ last_visit_date e +:+ nl
  +:+ "   Visit count: " +:+ number_to_string (visit_count e) +:+ nl
  +:+ match url_hostname w (url e) with
      | Some hostname => "   Domain: " +:+ hostname +:+ nl
      | None => ""
      end
  +:+ nl.

(** The blocks of the entries one after the other, in their order,
    numbered from [ordinal]. *)
Fixpoint entry_blocks (w : World) (ordinal : Z) (entries : list HistoryEntry)
  : string :=
  match entries with
  | [] => ""
  | e :: rest => entry_block w ordinal e +:+ entry_blocks w (ordinal + 1) rest
  end.

(** *** Rows that a search selects *)


(** A time lies in the range the options give: at or after the start
    timestamp when a start date is given, at or before the end timestamp
    when an end date is given. *)
Definition in_date_range (w : World) (options : SearchOptions) (t : Z)
  : Prop :=
  (truthy (startDate options) = true ->
   exists s, startTimestamp w (startDate options) = Some s /\ s <= t)
  /\ (truthy (endDate options) = true ->
      exists e, endTimestamp w (endDate options) = Some e /\ t <= e).

(** *** The cached paths *)

(** The three cached paths are unset together or set together to a
    profile directory and its two files. *)
Definition paths_consistent (st : ModuleState) : Prop :=
  (chromeProfilePath st = None /\ historyDbPath st = None
   /\ bookmarksPath st = None)
  \/ exists p,
       chromeProfilePath st = Some p
       /\ historyDbPath st = Some (path_join p "History")
       /\ bookmarksPath st = Some (path_join p "Bookmarks").

(** Two states hold the same cached paths. *)
Definition same_paths (st st' : ModuleState) : Prop :=
  chromeProfilePath st' = chromeProfilePath st
  /\ historyDbPath st' = historyDbPath st
  /\ bookmarksPath st' = bookmarksPath st.

(** A computation keeps a property of the state, however it ends. *)
Definition preserves {A : Type} (P : ModuleState -> Prop)
    (c : M ModuleState A) : Prop :=
  forall st r st', P st -> c st = (r, st') -> P st'.

(** The message of the error [locateChromeProfile] throws. *)
Definition not_found_message (w : World) : string :=
  "Chrome installation not found. Searched paths: "
  +:+ Js.join ", " (possiblePaths w) +:+ String "010"
  "Please ensure Chrome is installed and has been run at least once.".

(** A world in which the sample profile directory has disappeared. *)
Definition moved_away (w : World) : World :=
  {| possiblePaths := [];
     fs_access := fun _ => false;
     history_file := history_file w;
     bookmarks_file := bookmarks_file w;
     date_now := date_now w;
     date_parse := date_parse w;
     string_to_number := string_to_number w;
     sql_datetime := sql_datetime w;
     sql_integer_of_text := sql_integer_of_text w;
     url_hostname := url_hostname w;
     date_of_date_added := date_of_date_added w;
     toLocaleString := toLocaleString w |}.

(** ** Sample stores *)

(** The two instants of 14 November 2023 (read as UTC) that the samples
    ask for; every other string is an invalid date. *)
Definition sample_date_parse (s : string) : option Z :=
  if String.eqb s "2023-11-14T00:00:00" then Some 1699920000000
  else if String.eqb s "2023-11-14T23:59:59.999" then Some 1700006399999
  else None.

(** A runtime that prints a time as its number of seconds and has no URL
    parser; the files are given per sample.  The clock stands at
    22:13:20 on 14 November 2023. *)
Definition sample_world (paths : list string) (db : HistoryFile)
    (bookmarks : BookmarksFile) : World :=
  {| possiblePaths := paths;
     fs_access := fun _ => true;
     history_file := fun _ => db;
     bookmarks_file := fun _ => bookmarks;
     date_now := 1700000000000;
     date_parse := sample_date_parse;
     string_to_number := fun _ => None;
     sql_datetime := fun seconds => pretty seconds;
     sql_integer_of_text := fun _ => None;
     url_hostname := fun _ => None;
     date_of_date_added := fun _ => None;
     toLocaleString := fun n => pretty n |}.

Definition sample_paths : list string :=
  ["/home/user/.config/google-chrome/Default"].

(** Two pages; the first was visited twice, the second once. *)
Definition sample_db : Database :=
  {| urls :=
       [ {| urls_id := 1; urls_url := "https://github.com/rocq";
            urls_title := Some "Rocq on GitHub"; urls_visit_count := 2;
            urls_last_visit_time := 13344473000000000 |};
         {| urls_id := 2; urls_url := "https://example.org/";
            urls_title := None; urls_visit_count := 1;
            urls_last_visit_time := 13344472000000000 |} ];
     visits :=
       [ {| visits_url := 1; visits_visit_time := 13343800000000000 |};
         {| visits_url := 1; visits_visit_time := 13344473000000000 |};
         {| visits_url := 2; visits_visit_time := 13344472000000000 |} ] |}.

Definition sample : World := sample_world sample_paths (Opens sample_db) NoEntry.

(** The state once the sample profile has been located, with a given
    trace. *)
Definition located (calls : list Call) : ModuleState :=
  {| chromeProfilePath := Some "/home/user/.config/google-chrome/Default";
     historyDbPath := Some "/home/user/.config/google-chrome/Default/History";
     bookmarksPath :=
       Some "/home/user/.config/google-chrome/Default/Bookmarks";
     trace := calls |}.

(** No candidate directory at all: every provider call fails. *)
Definition no_chrome : World := sample_world [] (OpenFails "") NoEntry.

(** Sixty pages that all match the query [page]. *)
Definition numbered_page (i : nat) : UrlsRow :=
  {| urls_id := Z.of_nat i; urls_url := "https://example.org/page";
     urls_title := Some "Page"; urls_visit_count := 1;
     urls_last_visit_time := 13344472000000000 + Z.of_nat i |}.

Definition sixty_pages : Database :=
  {| urls := List.map numbered_page (seq 0 60); visits := [] |}.

Definition sixty : World := sample_world sample_paths (Opens sixty_pages) NoEntry.

(** A profile whose Bookmarks file holds the example tree. *)
Definition bookmarked : World :=
  sample_world sample_paths (Opens sample_db)
  (Parsed (example_bookmarks (Some "13300000000000000"))).

(** A profile whose Bookmarks file holds one bookmark directly below the
    root [bookmark_bar]. *)
Definition shallow_bookmarks : BookmarksData :=
  {| roots :=
       Some [ ("bookmark_bar",
               {| node_type := None; node_name := None; node_url := None;
                  node_date_added := None;
                  node_children :=
                    Some [to_node (Leaf "X" "http://x" None)] |}) ] |}.


(** A store whose pages were never visited. *)
Definition unvisited_db : Database :=
  {| urls :=
       [ {| urls_id := 1; urls_url := "https://example.org/";
            urls_title := Some "Example"; urls_visit_count := 0;
            urls_last_visit_time := 0 |} ];
     visits := [] |}.

Definition unvisited : World :=
  sample_world sample_paths (Opens unvisited_db) NoEntry.

(** ** Facts about numbers *)

Example to_double_odd_timestamp :
  to_double 13344472000000001 = 13344472000000000
  /\ to_double 13344472000000003 = 13344472000000004.
Proof. split; reflexivity. Qed.

Example number_to_string_examples :
  number_to_string 9007199254740992 = "9007199254740992"
  /\ number_to_string (2 ^ 64) = "18446744073709552000"
  /\ number_to_string (10 ^ 21) = "1e+21"
  /\ number_to_string (2 ^ 70) = "1.1805916207174113e+21"
  /\ number_to_string (- 2 ^ 63) = "-9223372036854776000".
Proof. repeat split; vm_compute; reflexivity. Qed.

Section NumberFacts.

Lemma nearest_bounds (q r ulp : Z) : q <= nearest q r ulp <= q + 1.
Proof. unfold nearest. repeat destruct (_ <? _); destruct (Z.even q); lia. Qed.

Lemma nearest_mono (q r r' ulp : Z) :
  r <= r' -> nearest q r ulp <= nearest q r' ulp.
Proof.
  unfold nearest. intros H.
  destruct (2 * r <? ulp) eqn:E1, (ulp <? 2 * r) eqn:E2,
           (2 * r' <? ulp) eqn:E3, (ulp <? 2 * r') eqn:E4;
    destruct (Z.even q); lia.
Qed.

Lemma to_double_large (m : Z) :
  2 ^ 53 <= m ->
  let e := Z.log2 m in
  let ulp := 2 ^ (e - 52) in
  to_double m = nearest (m / ulp) (m mod ulp) ulp * ulp
  /\ 53 <= e /\ 0 < ulp /\ 2 ^ e = 2 ^ 52 * ulp
  /\ 2 ^ e <= m < 2 * 2 ^ e
  /\ 2 ^ 52 <= m / ulp.
Proof.
  intros Hm e ulp.
  assert (Hpos : 0 < m) by (pose proof (Z.pow_pos_nonneg 2 53); lia).
  assert (He : 53 <= e).
  { subst e. apply Z.log2_le_pow2; lia. }
  assert (Hulp : 0 < ulp) by (subst ulp; apply Z.pow_pos_nonneg; lia).
  assert (Hsplit : 2 ^ e = 2 ^ 52 * ulp).
  { subst ulp. rewrite <- Z.pow_add_r by lia. f_equal. lia. }
  assert (Hlog : 2 ^ e <= m < 2 ^ (Z.succ e)) by (apply Z.log2_spec; lia).
  rewrite Z.pow_succ_r in Hlog by lia.
  split; [|repeat split; try lia].
  - unfold to_double. rewrite (Z.abs_eq m) by lia.
    apply Z.ltb_ge in Hm. rewrite Hm.
    fold e. fold ulp. rewrite (Z.sgn_pos m) by lia. lia.
  - apply Z.div_le_lower_bound; lia.
Qed.

Lemma to_double_mono_nonneg (a b : Z) :
  0 <= a <= b -> to_double a <= to_double b.
Proof.
  intros [Ha Hab].
  destruct (Z.lt_ge_cases b (2 ^ 53)) as [Hb|Hb].
  - unfold to_double. rewrite !Z.abs_eq by lia.
    assert (Ea : (a <? 2 ^ 53) = true) by (apply Z.ltb_lt; lia).
    assert (Eb : (b <? 2 ^ 53) = true) by (apply Z.ltb_lt; lia).
    rewrite Ea, Eb. exact Hab.
  - destruct (to_double_large b Hb) as (Eb & Heb & Hub & Hsb & Hlb & Hqb).
    rewrite Eb.
    pose proof (nearest_bounds (b / 2 ^ (Z.log2 b - 52))
                  (b mod 2 ^ (Z.log2 b - 52)) (2 ^ (Z.log2 b - 52))) as Hnb.
    destruct (Z.lt_ge_cases a (2 ^ 53)) as [Ha'|Ha'].
    + unfold to_double at 1. rewrite Z.abs_eq by lia.
      assert (Ea : (a <? 2 ^ 53) = true) by (apply Z.ltb_lt; lia).
      rewrite Ea.
      assert (2 ^ 53 <= 2 ^ Z.log2 b) by (apply Z.pow_le_mono_r; lia).
      nia.
    + destruct (to_double_large a Ha') as (Ea & Hea & Hua & Hsa & Hla & Hqa).
      rewrite Ea.
      pose proof (nearest_bounds (a / 2 ^ (Z.log2 a - 52))
                    (a mod 2 ^ (Z.log2 a - 52)) (2 ^ (Z.log2 a - 52))) as Hna.
      assert (Hlog : Z.log2 a <= Z.log2 b) by (apply Z.log2_le_mono; lia).
      pose proof (Z.div_mod a (2 ^ (Z.log2 a - 52)) ltac:(lia)) as Hda.
      pose proof (Z.mod_pos_bound a (2 ^ (Z.log2 a - 52)) Hua) as Hma.
      pose proof (Z.div_mod b (2 ^ (Z.log2 b - 52)) ltac:(lia)) as Hdb.
      pose proof (Z.mod_pos_bound b (2 ^ (Z.log2 b - 52)) Hub) as Hmb.
      destruct (Z.eq_dec (Z.log2 a) (Z.log2 b)) as [Heq|Hne].
      * rewrite Heq in *.
        set (ulp := 2 ^ (Z.log2 b - 52)) in *.
        set (qa := a / ulp) in *. set (qb := b / ulp) in *.
        set (ra := a mod ulp) in *. set (rb := b mod ulp) in *.
        assert (Hq : qa <= qb) by (apply Z.div_le_mono; lia).
        destruct (Z.eq_dec qa qb) as [Hqq|Hqq].
        -- rewrite Hqq in *.
           assert (ra <= rb) by nia.
           pose proof (nearest_mono qb ra rb ulp ltac:(assumption)). nia.
        -- assert (qa + 1 <= qb) by lia. nia.
      * assert (Hlt : Z.log2 a + 1 <= Z.log2 b) by lia.
        assert (Hpow : 2 * 2 ^ Z.log2 a <= 2 ^ Z.log2 b).
        { rewrite <- Z.pow_succ_r by lia. apply Z.pow_le_mono_r; lia. }
        (* to_double a <= 2 * 2^ea *)
        assert (Hqa2 : a / 2 ^ (Z.log2 a - 52) < 2 ^ 53).
        { apply Z.div_lt_upper_bound; [lia|].
          replace (2 ^ 53) with (2 * 2 ^ 52) by reflexivity. nia. }
        nia.
Qed.

Lemma to_double_opp (n : Z) : to_double (- n) = - to_double n.
Proof.
  unfold to_double. rewrite Z.abs_opp, Z.sgn_opp.
  destruct (Z.abs n <? 2 ^ 53); lia.
Qed.

Lemma to_double_nonneg (n : Z) : 0 <= n -> 0 <= to_double n.
Proof.
  intros Hn. pose proof (to_double_mono_nonneg 0 n ltac:(lia)) as H.
  exact H.
Qed.

(** Rounding keeps the order. *)
Lemma to_double_mono (a b : Z) : a <= b -> to_double a <= to_double b.
Proof.
  intros Hab.
  destruct (Z.le_gt_cases 0 a) as [Ha|Ha].
  - apply to_double_mono_nonneg. lia.
  - destruct (Z.le_gt_cases 0 b) as [Hb|Hb].
    + pose proof (to_double_nonneg b Hb).
      pose proof (to_double_nonneg (- a) ltac:(lia)) as H1.
      rewrite to_double_opp in H1. lia.
    + pose proof (to_double_mono_nonneg (- b) (- a) ltac:(lia)) as H1.
      rewrite !to_double_opp in H1. lia.
Qed.

Lemma to_double_small (n : Z) : Z.abs n < 2 ^ 53 -> to_double n = n.
Proof.
  intros H. unfold to_double. apply Z.ltb_lt in H. now rewrite H.
Qed.

Lemma to_double_pos (n : Z) : 0 < n -> 0 < to_double n.
Proof.
  intros Hn. pose proof (to_double_mono 1 n ltac:(lia)) as H.
  change (to_double 1) with 1 in H. lia.
Qed.

(** Up to [2 ^ 53] a number prints with all its digits. *)
Lemma number_to_string_small (n : Z) :
  Z.abs n <= 2 ^ 53 -> number_to_string n = pretty n.
Proof.
  intros H. unfold number_to_string. apply Z.leb_le in H. now rewrite H.
Qed.

End NumberFacts.

(** ** Facts about strings *)

Example toLowerCase_GitHub : toLowerCase "GitHub.com/Rocq" = "github.com/rocq".
Proof. reflexivity. Qed.

Example trim_padded :
  trim (" " +:+ String "009" "a b" +:+ String "010" " ") = "a b".
Proof. reflexivity. Qed.

Example trim_unicode :
  trim (utf8 [194; 160] +:+ " a b" +:+ utf8 [226; 128; 168; 10]) = "a b"
  /\ has_text (utf8 [194; 160]) = false.
Proof. split; reflexivity. Qed.

Example includes_middle :
  includes "bookmark_bar/work" "bar/w" = true
  /\ includes "bookmark_bar/work" "bar/x" = false.
Proof. split; reflexivity. Qed.

Example like_substring_github :
  like "%github%" "https://GitHub.com/rocq" = true
  /\ like "%github%" "https://example.org/" = false.
Proof. split; reflexivity. Qed.

Example like_wildcards :
  like "%a_c%" "xxabcxx" = true
  /\ like "%a_c%" "xxacxx" = false
  /\ like "%100%%" "at 100 percent" = true.
Proof. repeat split; reflexivity. Qed.

Section StringFacts.

#[local] Arguments String.append !_ _ / : simpl nomatch.

Lemma append_empty_r (s : string) : s +:+ "" = s.
Proof. induction s as [|c s IH]; simpl; [reflexivity | now rewrite IH]. Qed.

Lemma append_assoc (a b c : string) : (a +:+ b) +:+ c = a +:+ (b +:+ c).
Proof. induction a as [|x a IH]; simpl; [reflexivity | now rewrite IH]. Qed.

Lemma startsWith_spec (s t : string) :
  startsWith s t = true <-> exists post, s = t +:+ post.
Proof.
  revert s. induction t as [|b t IH]; intros s; simpl.
  - destruct s; split; eauto.
  - destruct s as [|a s].
    + split; [discriminate | intros [post H]; discriminate].
    + cbn [startsWith]. rewrite andb_true_iff, IH. split.
      * intros [Hab [post ->]]. apply Ascii.eqb_eq in Hab. subst.
        now exists post.
      * intros [post H]. injection H as -> ->. split.
        -- apply Ascii.eqb_refl.
        -- now exists post.
Qed.

Lemma includes_spec (s t : string) :
  includes s t = true <-> substring_of t s.
Proof.
  unfold substring_of. induction s as [|a s IH].
  - cbn [includes]. rewrite orb_false_r, startsWith_spec. split.
    + intros [post H]. now exists ""%string, post.
    + intros [pre [post H]]. destruct pre; [|discriminate].
      now exists post.
  - cbn [includes]. rewrite orb_true_iff, IH, startsWith_spec. split.
    + intros [[post H] | [pre [post H]]].
      * now exists ""%string, post.
      * exists (String a pre), post. simpl. now rewrite H.
    + intros [pre [post H]]. destruct pre as [|x pre].
      * left. now exists post.
      * right. injection H as -> ->. now exists pre, post.
Qed.

Lemma includes_empty (s : string) : includes s "" = true.
Proof. destruct s; reflexivity. Qed.

Lemma toLowerCase_append (a b : string) :
  toLowerCase (a +:+ b) = toLowerCase a +:+ toLowerCase b.
Proof. induction a as [|c a IH]; simpl; [reflexivity | now rewrite IH]. Qed.

(** Splitting a lower-cased string splits the string. *)
Lemma toLowerCase_split (s x y : string) :
  toLowerCase s = x +:+ y ->
  exists a b, s = a +:+ b /\ toLowerCase a = x /\ toLowerCase b = y.
Proof.
  revert s. induction x as [|c x IH]; intros s H; simpl in H.
  - now exists ""%string, s.
  - destruct s as [|d s]; [discriminate|]. simpl in H.
    injection H as Hc Hs. destruct (IH _ Hs) as (a & b & -> & Ha & Hb).
    exists (String d a), b. simpl. now rewrite Hc, Ha.
Qed.

Lemma includes_ci_spec (s q : string) :
  includes_ci s q = true <-> contains_ci s q.
Proof.
  unfold includes_ci, contains_ci. rewrite includes_spec. split.
  - intros [pre [post H]].
    destruct (toLowerCase_split _ _ _ H) as (a & r & -> & Ha & Hr).
    destruct (toLowerCase_split _ _ _ Hr) as (m & b & -> & Hm & Hb).
    now exists a, m, b.
  - intros (pre & m & post & -> & Hm).
    exists (toLowerCase pre), (toLowerCase post).
    now rewrite !toLowerCase_append, Hm.
Qed.






(** An ASCII white space at the front is stripped. *)
Lemma strip_any_white_space (c : ascii) (s : string) :
  is_white_space c = true ->
  strip_any white_space (String c s) = Some s.
Proof.
  destruct c as [[] [] [] [] [] [] [] []]; try discriminate;
    intros _; reflexivity.
Qed.

Lemma strip_leading_blank (fuel : nat) (s : string) :
  blank s = true -> (String.length s <= fuel)%nat ->
  strip_leading white_space fuel s = ""%string.
Proof.
  revert s. induction fuel as [|fuel IH]; intros [|c s] H Hlen;
    try reflexivity.
  - simpl in Hlen. lia.
  - cbn [blank] in H. apply andb_true_iff in H as [Hc H].
    cbn [strip_leading].
    rewrite (strip_any_white_space c s Hc).
    apply IH; [assumption | simpl in Hlen; lia].
Qed.

(** A string of ASCII white space trims to the empty string. *)
Lemma trim_blank (s : string) : blank s = true -> trim s = ""%string.
Proof.
  intros H. unfold trim, trimStart.
  now rewrite (strip_leading_blank (String.length s) s H).
Qed.

End StringFacts.

(** ** Facts about the provider *)

Section ProviderFacts.

Variable w : World.

Lemma locate_in_spec (paths : list string) (st : ModuleState) :
  match List.find (accepts w) paths with
  | Some p => locate_in w paths st = (inr p, with_profile st p)
  | None => exists e, locate_in w paths st = (inl (Error e), st)
  end.
Proof.
  induction paths as [|p paths IH]; simpl.
  - eauto.
  - unfold accepts at 1.
    destruct (fs_access w p); simpl; [|exact IH].
    destruct (fs_access w (path_join p "History")); simpl; [reflexivity|].
    destruct (fs_access w (path_join p "Bookmarks")); simpl;
      [reflexivity | exact IH].
Qed.

Lemma path_join_nonempty (p f : string) :
  String.eqb (path_join p f) "" = false.
Proof. unfold path_join. destruct p; reflexivity. Qed.

(** When the store opens, a query returns what the query means on the
    database, or fails with the engine's message. *)
Lemma queryHistory_opened {A : Type} (query : Database -> string + list A)
    (st : ModuleState) (db : Database) :
  opened w st = Some db ->
  exists st',
    queryHistory w query st =
      (match query db with
       | inr rows => inr rows
       | inl msg => inl (Error ("Database query failed: " +:+ msg))
       end, st').
Proof.
  unfold opened, history_path, found_profile.
  unfold queryHistory, ensureInitialized, locateChromeProfile.
  unfold Eff.bind, called, modify, get, ret, throw. simpl.
  destruct (unset (chromeProfilePath st)) eqn:Hu.
  - match goal with |- context [locate_in w ?ps ?s] =>
      pose proof (locate_in_spec ps s) as Hl end.
    destruct (List.find (accepts w) (possiblePaths w)) as [p|];
      simpl in Hl |- *; [|discriminate].
    rewrite Hl. simpl. rewrite path_join_nonempty.
    destruct (history_file w (path_join p "History")); try discriminate.
    intros [= ->]. destruct (query db); eauto.
  - destruct (historyDbPath st) as [path|]; simpl; [|discriminate].
    destruct (String.eqb path ""); [discriminate|].
    destruct (history_file w path); try discriminate.
    intros [= ->]. destruct (query db); eauto.
Qed.

(** Conversely rows only ever come from the opened store. *)
Lemma queryHistory_inv {A : Type} (query : Database -> string + list A)
    (st st' : ModuleState) (rows : list A) :
  queryHistory w query st = (inr rows, st') ->
  exists db, opened w st = Some db /\ query db = inr rows.
Proof.
  unfold opened, history_path, found_profile.
  unfold queryHistory, ensureInitialized, locateChromeProfile.
  unfold Eff.bind, called, modify, get, ret, throw. simpl.
  destruct (unset (chromeProfilePath st)) eqn:Hu.
  - match goal with |- context [locate_in w ?ps ?s] =>
      pose proof (locate_in_spec ps s) as Hl end.
    destruct (List.find (accepts w) (possiblePaths w)) as [p|];
      simpl in Hl |- *.
    + rewrite Hl. simpl. rewrite path_join_nonempty.
      destruct (history_file w (path_join p "History")); try discriminate.
      destruct (query db) eqn:Hq; [discriminate|].
      intros [= -> _]. eauto.
    + destruct Hl as [e ->]. discriminate.
  - destruct (historyDbPath st) as [path|]; simpl; [|discriminate].
    destruct (String.eqb path ""); [discriminate|].
    destruct (history_file w path); try discriminate.
    destruct (query db) eqn:Hq; [discriminate|].
    intros [= -> _]. eauto.
Qed.


(** A number within the engine's integers is a limit. *)
Lemma limit_int {A : Type} (f : string -> option Z) (n : Z)
    (rows : list A) :
  Z.abs n < 2 ^ 63 ->
  Sql.limit f (SqlInt n) rows
  = inr (if n <? 0 then rows else firstn (Z.to_nat n) rows).
Proof.
  intros Hn. unfold Sql.limit. apply Z.ltb_lt in Hn. now rewrite Hn.
Qed.

(** A number beyond them is a datatype mismatch. *)
Lemma limit_out_of_range {A : Type} (f : string -> option Z) (n : Z)
    (rows : list A) :
  2 ^ 63 <= Z.abs n ->
  Sql.limit f (SqlInt n) rows = inl "SQLITE_MISMATCH: datatype mismatch"%string.
Proof.
  intros Hn. unfold Sql.limit. apply Z.ltb_ge in Hn. now rewrite Hn.
Qed.



#[global] Instance by_last_visit_desc_trans : Transitive by_last_visit_desc.
Proof. unfold by_last_visit_desc. intros a b c. lia. Qed.

#[global] Instance by_last_visit_desc_total : Total by_last_visit_desc.
Proof. unfold by_last_visit_desc. intros a b. lia. Qed.

#[global] Instance by_visit_desc_trans : Transitive by_visit_desc.
Proof. unfold by_visit_desc. intros a b c. lia. Qed.

#[global] Instance by_visit_desc_total : Total by_visit_desc.
Proof. unfold by_visit_desc. intros a b. lia. Qed.

Lemma map_StronglySorted {A B : Type} (R : A -> A -> Prop)
    (Q : B -> B -> Prop) (f : A -> B) (l : list A) :
  (forall a b, R a b -> Q (f a) (f b)) ->
  StronglySorted R l -> StronglySorted Q (List.map f l).
Proof.
  intros HRQ. induction 1 as [|x l Hs IH Hx]; simpl; constructor.
  - assumption.
  - rewrite List.Forall_forall in *. intros y Hy.
    apply List.in_map_iff in Hy as (a & <- & Ha). auto.
Qed.

End ProviderFacts.

(** ** What the limit keeps *)

Section SelectFacts.

Context {A : Type} (R : relation A) `{!RelDecision R}.
Context `{!Transitive R} `{!Total R}.

(** A query sorts the matching rows and keeps a prefix: the rows kept and
    the rows cut off are together the matching rows, in sorted order; a
    negative limit cuts nothing off, and a limit [n >= 0] keeps [n] rows
    or all of them. *)
Lemma select_top (f : string -> option Z) (p : SqlVal)
    (matching kept : list A) :
  Sql.limit f p (merge_sort R matching) = inr kept ->
  exists rest,
    kept ++ rest ≡ₚ matching
    /\ StronglySorted R (kept ++ rest)
    /\ forall n, p = SqlInt n ->
         (n < 0 -> rest = [])
         /\ (0 <= n ->
             Z.of_nat (length kept) = Z.min n (Z.of_nat (length matching))).
Proof.
  set (sorted := merge_sort R matching).
  assert (Hperm : sorted ≡ₚ matching) by apply merge_sort_Permutation.
  assert (Hsorted : StronglySorted R sorted)
    by (apply StronglySorted_merge_sort; assumption).
  assert (Hcut : forall n : Z,
    exists rest,
      (if n <? 0 then sorted else firstn (Z.to_nat n) sorted) ++ rest = sorted
      /\ (n < 0 -> rest = [])
      /\ (0 <= n ->
          Z.of_nat (length (if n <? 0 then sorted
                            else firstn (Z.to_nat n) sorted))
          = Z.min n (Z.of_nat (length matching)))).
  { intros n. destruct (n <? 0) eqn:Hn.
    - exists []. apply Z.ltb_lt in Hn.
      split; [apply app_nil_r|]. split; [reflexivity | lia].
    - exists (skipn (Z.to_nat n) sorted). apply Z.ltb_ge in Hn.
      split; [apply firstn_skipn|]. split; [lia|]. intros _.
      rewrite List.length_firstn. rewrite (Permutation_length Hperm). lia. }
  unfold Sql.limit. destruct p as [|n|s].
  - discriminate.
  - destruct (Z.abs n <? 2 ^ 63); [|discriminate].
    intros [= <-]. destruct (Hcut n) as (rest & Happ & Hneg & Hlen).
    exists rest. rewrite Happ. split; [exact Hperm|]. split; [exact Hsorted|].
    intros m [= <-]. auto.
  - destruct (f s) as [n|]; [|discriminate]. intros [= <-].
    destruct (Hcut n) as (rest & Happ & _).
    exists rest. rewrite Happ. split; [exact Hperm|]. split; [exact Hsorted|].
    intros m Hm. discriminate.
Qed.

(** The same when the rows are projected before the limit applies. *)
Lemma select_map_top {B : Type} (f : string -> option Z) (g : A -> B)
    (p : SqlVal) (matching : list A) (rows : list B) :
  Sql.limit f p (List.map g (merge_sort R matching)) = inr rows ->
  exists kept rest,
    rows = List.map g kept
    /\ kept ++ rest ≡ₚ matching
    /\ StronglySorted R (kept ++ rest)
    /\ forall n, p = SqlInt n ->
         (n < 0 -> rest = [])
         /\ (0 <= n ->
             Z.of_nat (length kept) = Z.min n (Z.of_nat (length matching))).
Proof.
  intros Hrun.
  assert (Hmap : forall l,
    Sql.limit f p (List.map g l)
    = match Sql.limit f p l with
      | inr kept => inr (List.map g kept)
      | inl e => inl e
      end).
  { intros l. unfold Sql.limit.
    assert (Hc : forall n : Z,
      (if n <? 0 then List.map g l else firstn (Z.to_nat n) (List.map g l))
      = List.map g (if n <? 0 then l else firstn (Z.to_nat n) l)).
    { intros n. destruct (n <? 0); [reflexivity | apply firstn_map]. }
    destruct p as [|n|s]; [reflexivity | |].
    - destruct (Z.abs n <? 2 ^ 63); [now rewrite Hc | reflexivity].
    - destruct (f s); [now rewrite Hc | reflexivity]. }
  rewrite Hmap in Hrun.
  destruct (Sql.limit f p (merge_sort R matching)) as [e|kept] eqn:Hl;
    [discriminate|].
  injection Hrun as <-.
  destruct (select_top f p matching kept Hl) as (rest & H).
  exists kept, rest. split; [reflexivity | exact H].
Qed.

(** Every row cut off sorts after every row kept. *)
Lemma kept_before_rest (kept rest : list A) (x y : A) :
  StronglySorted R (kept ++ rest) -> In x kept -> In y rest -> R x y.
Proof.
  intros Hs Hx Hy.
  apply (StronglySorted_app_1_elem_of R kept rest); [assumption| |];
    now apply list_elem_of_In.
Qed.

(** When the limit is negative or not below the number of matching rows,
    nothing is cut off. *)
Lemma nothing_cut (kept rest matching : list A) (n : Z) :
  kept ++ rest ≡ₚ matching ->
  (n < 0 -> rest = []) ->
  (0 <= n -> Z.of_nat (length kept) = Z.min n (Z.of_nat (length matching))) ->
  n < 0 \/ Z.of_nat (length matching) <= n ->
  rest = [].
Proof.
  intros Hperm Hneg Hlen [Hn|Hn]; [auto|].
  destruct (Z.lt_ge_cases n 0) as [Hlt|Hge]; [auto|].
  specialize (Hlen Hge). apply Permutation_length in Hperm.
  rewrite List.length_app in Hperm.
  destruct rest; [reflexivity|]. simpl in Hperm. lia.
Qed.

End SelectFacts.

(** ** The rows a search selects *)

Section SearchSelectFacts.

Variable w : World.






End SearchSelectFacts.

(** ** The dispatcher *)

Section DispatcherFacts.

Variable w : World.

(** The names the registry lists, in its order. *)
Lemma registered_names_eq :
  registered_names =
    ["search_history"; "get_bookmarks"; "analyze_browsing_patterns";
     "export_data"; "get_recent_browsing"; "get_history_stats"].
Proof. reflexivity. Qed.

Lemma search_history_returns (args : gmap string JsVal) (st : ModuleState) :
  exists text st', search_history w (Some args) st = (inr (text_result text), st').
Proof.
  unfold search_history, try_catch, Eff.bind, prop, ret. simpl.
  match goal with |- context [if ?c then _ else _] => destruct c end;
    [eauto|].
  match goal with |- context [searchHistory w ?q ?o st] =>
    destruct (searchHistory w q o st) as [[e|rows] st1] end; eauto.
Qed.

Lemma get_recent_browsing_returns (args : option (gmap string JsVal))
    (st : ModuleState) :
  exists text st',
    get_recent_browsing w args st = (inr (text_result text), st').
Proof.
  unfold get_recent_browsing, try_catch, Eff.bind, prop, ret, throw.
  destruct args as [args|]; simpl; [|eauto].
  match goal with |- context [getRecentBrowsing w ?h ?l ?d st] =>
    destruct (getRecentBrowsing w h l d st) as [[e|rows] st1] end; eauto.
Qed.

Lemma get_history_stats_returns (args : option (gmap string JsVal))
    (st : ModuleState) :
  exists text st',
    get_history_stats w args st = (inr (text_result text), st').
Proof.
  unfold get_history_stats, try_catch, Eff.bind, ret, throw.
  destruct (getHistoryStats w st) as [[e|[stats|]] st1]; eauto.
  destruct (total_visits stats); eauto.
Qed.

Lemma search_history_no_arguments (st : ModuleState) :
  search_history w None st
  = (inr (text_result
            (search_error_text
               (TypeError
                  "Cannot read properties of undefined (reading 'query')"))),
     st).
Proof. reflexivity. Qed.

End DispatcherFacts.

(** C1.  A CallTool request whose name is not one of the registered tool
    names ends in the protocol fault [MethodNotFound]: [callTool] throws
    the [McpError] with that code, returns no ToolResult, and leaves the
    provider untouched. *)
Theorem unknown_tool_method_not_found (w : World) (request : CallToolRequest)
    (st : ModuleState) :
  ~ In (req_name request) registered_names ->
  callTool w request st
  = (inl (McpError MethodNotFound ("Unknown tool: " +:+ req_name request)), st).
Proof.
  intros Hnot. unfold callTool.
  repeat match goal with
  | |- context [String.eqb (req_name request) ?lit] =>
      destruct (String.eqb_spec (req_name request) lit) as [Heq|_];
        [exfalso; apply Hnot; rewrite Heq; vm_compute; tauto|]
  end.
  reflexivity.
Qed.

Lemma unknown_tool_method_not_found_witness :
  ~ In "delete_history" registered_names
  /\ callTool sample
       {| req_name := "delete_history"; req_arguments := Some ∅ |}
       initial_state
     = (inl (McpError MethodNotFound "Unknown tool: delete_history"),
        initial_state).
Proof.
  assert (H : ~ In "delete_history" registered_names).
  { vm_compute. intuition discriminate. }
  split; [exact H|].
  exact (unknown_tool_method_not_found sample
           {| req_name := "delete_history"; req_arguments := Some ∅ |}
           initial_state H).
Defined.

(** C2.  For every registered tool name, [callTool] on a request that
    carries an arguments mapping returns a ToolResult, a single text block,
    and never throws: whatever the mapping holds, and whatever the world
    is, so also when the profile is not found, the History file does not
    open or the query fails. *)
Theorem registered_tool_returns_result (w : World) (name : string)
    (args : gmap string JsVal) (st : ModuleState) :
  In name registered_names ->
  exists text st',
    callTool w {| req_name := name; req_arguments := Some args |} st
    = (inr (text_result text), st').
Proof.
  rewrite registered_names_eq. simpl.
  intros [<-|[<-|[<-|[<-|[<-|[<-|[]]]]]]]; unfold callTool; simpl.
  - apply search_history_returns.
  - unfold get_bookmarks, ret. eauto.
  - unfold analyze_browsing_patterns, Eff.bind, prop, ret. eauto.
  - unfold export_data, Eff.bind, prop, ret. eauto.
  - apply get_recent_browsing_returns.
  - apply get_history_stats_returns.
Qed.

Lemma registered_tool_returns_result_witness :
  In "get_recent_browsing" registered_names
  /\ exists text st',
       callTool no_chrome
         {| req_name := "get_recent_browsing"; req_arguments := Some ∅ |}
         initial_state
       = (inr (text_result text), st').
Proof.
  assert (H : In "get_recent_browsing" registered_names).
  { vm_compute. tauto. }
  split; [exact H|].
  exact (registered_tool_returns_result no_chrome "get_recent_browsing" ∅
           initial_state H).
Defined.

(** With no Chrome profile on the machine the failure of the provider
    comes back as the text of an ordinary result. *)
Example provider_failure_is_a_result :
  callTool no_chrome
    {| req_name := "search_history";
       req_arguments := Some {[ "query" := JStr "github" ]} |}
    initial_state
  = (inr (text_result
       (search_error_text
          (Error
             ("Chrome installation not found. Searched paths: " +:+ nl
              +:+ "Please ensure Chrome is installed and has been run at least once.")))),
     {| chromeProfilePath := None; historyDbPath := None;
        bookmarksPath := None;
        trace := [CallLocateChromeProfile; CallQueryHistory;
                  CallSearchHistory (JStr "github")
                    {| startDate := JUndefined; endDate := JUndefined;
                       limit := JNum 100 |}] |}).
Proof. vm_compute. reflexivity. Qed.

(** C3.  When [query] is empty or absent and [start_date] and [end_date]
    are absent, search_history answers with the text asking for a query or
    a date range, as an ordinary result; the provider's state, and with it
    the trace of provider calls, is unchanged: [searchHistory] did not
    run. *)
Theorem search_history_requires_query_or_dates (w : World)
    (args : gmap string JsVal) (st : ModuleState) :
  args !! "query" = None \/ args !! "query" = Some (JStr "") ->
  args !! "start_date" = None ->
  args !! "end_date" = None ->
  callTool w {| req_name := "search_history"; req_arguments := Some args |} st
  = (inr (text_result
       "Error: Please provide either a search query or a date range (or both)"),
     st).
Proof.
  intros Hq Hs He. unfold callTool, search_history. simpl.
  unfold try_catch, Eff.bind, prop, ret. simpl.
  rewrite Hs, He. destruct Hq as [-> | ->]; reflexivity.
Qed.

Lemma search_history_requires_query_or_dates_witness :
  callTool sample
    {| req_name := "search_history";
       req_arguments := Some {[ "query" := JStr "" ]} |}
    initial_state
  = (inr (text_result
       "Error: Please provide either a search query or a date range (or both)"),
     initial_state).
Proof.
  apply (search_history_requires_query_or_dates sample
           {[ "query" := JStr "" ]} initial_state).
  - right. reflexivity.
  - reflexivity.
  - reflexivity.
Defined.

(** C10.  A request with no arguments mapping at all: the handlers of
    analyze_browsing_patterns and export_data read a property of the
    missing mapping outside any [try] and the TypeError escapes
    [callTool]; the other four tools still return a ToolResult. *)
Theorem missing_arguments_mapping (w : World) (st : ModuleState) :
  callTool w {| req_name := "analyze_browsing_patterns";
                req_arguments := None |} st
  = (inl (TypeError
       "Cannot read properties of undefined (reading 'timeframe')"), st)
  /\ callTool w {| req_name := "export_data"; req_arguments := None |} st
     = (inl (TypeError
          "Cannot read properties of undefined (reading 'format')"), st)
  /\ (forall name,
        In name ["search_history"; "get_recent_browsing"; "get_bookmarks";
                 "get_history_stats"] ->
        exists text st',
          callTool w {| req_name := name; req_arguments := None |} st
          = (inr (text_result text), st')).
Proof.
  split; [reflexivity|]. split; [reflexivity|].
  simpl. intros name [<-|[<-|[<-|[<-|[]]]]]; unfold callTool; simpl.
  - rewrite search_history_no_arguments. eauto.
  - apply get_recent_browsing_returns.
  - unfold get_bookmarks, ret. eauto.
  - apply get_history_stats_returns.
Qed.

(** ** searchHistory *)

Section SearchFacts.

Variable w : World.


(** [hasSearchQuery] on a string is the test that trimming leaves
    text. *)
Lemma hasSearchQuery_string (q : string) (st : ModuleState) :
  hasSearchQuery (JStr q) st = (inr (has_text q), st).
Proof.
  unfold hasSearchQuery, has_text. simpl.
  destruct (String.eqb_spec q "") as [->|Hne]; simpl; [reflexivity|].
  unfold ret. f_equal. f_equal.
  destruct (trim q) as [|c t]; [reflexivity|]. simpl. apply Z.ltb_lt. lia.
Qed.

Lemma has_text_blank (q : string) : blank q = true -> has_text q = false.
Proof. intros Hb. unfold has_text. now rewrite (trim_blank q Hb). Qed.

(** A white-space query is no query: no LIKE clause is added. *)
Lemma hasSearchQuery_blank (q : string) (st : ModuleState) :
  blank q = true -> hasSearchQuery (JStr q) st = (inr false, st).
Proof.
  intros Hb. rewrite hasSearchQuery_string. now rewrite (has_text_blank q Hb).
Qed.



End SearchFacts.



(** The search of the witness finds the one GitHub page, and the date
    filter keeps it. *)
Example search_github :
  fst (searchHistory sample (JStr "GitHub")
         {| startDate := JStr "2023-11-14"; endDate := JUndefined;
            limit := JNum 50 |} initial_state)
  = inr [ {| url := "https://github.com/rocq";
             title := Some "Rocq on GitHub"; visit_count := 2;
             last_visit_time := 13344473000000000;
             last_visit_date := "1699999400" |} ].
Proof. vm_compute. reflexivity. Qed.

(** A limit beyond the engine's integers makes the query fail. *)
Example search_history_limit_out_of_range :
  fst (searchHistory sample (JStr "o")
         {| startDate := JUndefined; endDate := JUndefined;
            limit := JNum (10 ^ 19) |} initial_state)
  = inl (Error "Database query failed: SQLITE_MISMATCH: datatype mismatch").
Proof. vm_compute. reflexivity. Qed.


(** ** The default limit of search_history *)

(** Without a [limit] argument the handler searches with limit 100. *)
Lemma search_history_limit_absent (w : World) (args : gmap string JsVal)
    (st : ModuleState) :
  args !! "limit" = None ->
  callTool w {| req_name := "search_history"; req_arguments := Some args |} st
  = callTool w {| req_name := "search_history";
                  req_arguments := Some (<["limit" := JNum 100]> args) |} st.
Proof.
  intros Hl. unfold callTool, search_history. simpl.
  unfold try_catch, Eff.bind, prop, ret. simpl.
  rewrite lookup_insert_eq, !lookup_insert_ne, Hl by discriminate.
  reflexivity.
Qed.

(** When as many rows come back as the numeric limit allows, the text
    carries the notice. *)
Lemma search_text_truncation_notice (w : World)
    (query startDate endDate : JsVal) (n : Z)
    (searchResults : list HistoryEntry) :
  searchResults <> [] ->
  Z.of_nat (length searchResults) = n ->
  substring_of (" (limited to " +:+ number_to_string n +:+ " entries)")
    (search_text w query startDate endDate (JNum n) searchResults).
Proof.
  intros Hne Hlen. unfold search_text, strict_eq_num.
  destruct searchResults as [|e rest]; [congruence|].
  rewrite Hlen, Z.eqb_refl. simpl to_string. unfold substring_of.
  match goal with
  | |- exists pre post, ?a +:+ ?b +:+ ?c +:+ ?d +:+ ?notice +:+ ?e = _ =>
      exists (a +:+ b +:+ c +:+ d), e
  end.
  now rewrite !append_assoc.
Qed.

(** The same for the tool: when [searchHistory] returns as many rows as
    the limit in force, the answer carries the notice. *)
Lemma search_history_truncation_notice (w : World)
    (args : gmap string JsVal) (st st' : ModuleState)
    (entries : list HistoryEntry) :
  let query := or_else (default JUndefined (args !! "query")) (JStr "") in
  let startDate := default JUndefined (args !! "start_date") in
  let endDate := default JUndefined (args !! "end_date") in
  let limit := or_else (default JUndefined (args !! "limit")) (JNum 100) in
  truthy query || truthy startDate || truthy endDate = true ->
  searchHistory w query
    {| startDate := startDate; endDate := endDate; limit := limit |} st
  = (inr entries, st') ->
  limit = JNum (Z.of_nat (length entries)) ->
  exists text,
    callTool w {| req_name := "search_history"; req_arguments := Some args |} st
    = (inr (text_result text), st')
    /\ substring_of
         (" (limited to " +:+ number_to_string (Z.of_nat (length entries))
          +:+ " entries)")
         text.
Proof.
  intros query startDate endDate limit Hgiven Hrun Hlimit.
  assert (Hne : entries <> []).
  { intros ->. simpl in Hlimit. subst limit. unfold or_else in Hlimit.
    destruct (truthy (default JUndefined (args !! "limit"))) eqn:Ht;
      [|discriminate].
    rewrite Hlimit in Ht. discriminate. }
  eexists. split.
  - unfold callTool, search_history. simpl.
    unfold try_catch, Eff.bind, prop, ret. simpl.
    fold query startDate endDate limit.
    assert (Hguard : negb (truthy query) && negb (truthy startDate)
                     && negb (truthy endDate) = false).
    { destruct (truthy query), (truthy startDate), (truthy endDate);
        simpl in *; congruence. }
    rewrite Hguard, Hrun. reflexivity.
  - rewrite Hlimit. now apply search_text_truncation_notice.
Qed.

(** C5, at the failing input.  The schema declares the default limit 50,
    yet a search without [limit] over sixty matching pages passes the limit
    100 to [searchHistory] and lists all sixty. *)
Theorem search_history_default_limit_is_100 :
  declared_default <$> declared "search_history" "limit"
  = Some (Some (JNum 50))
  /\ exists text st',
       callTool sixty
         {| req_name := "search_history";
            req_arguments := Some {[ "query" := JStr "page" ]} |}
         initial_state
       = (inr (text_result text), st')
       /\ trace st'
          = [CallLocateChromeProfile; CallQueryHistory;
             CallSearchHistory (JStr "page")
               {| startDate := JUndefined; endDate := JUndefined;
                  limit := JNum 100 |}]
       /\ includes text "60. Page" = true
       /\ includes text "Total results: 60" = true
       /\ includes text "limited to" = false.
Proof.
  split; [reflexivity|].
  eexists. eexists. split; [vm_compute; reflexivity|].
  repeat split; vm_compute; reflexivity.
Qed.

(** ** getRecentBrowsing *)

Section RecentFacts.

Variable w : World.




End RecentFacts.



(** The first page was visited twice; looking back 200 hours both visits
    are listed, each with its own time ([1699326400] for the older one,
    not the page's last visit [1699999400]). *)
Example recent_browsing_reports_each_visit :
  fst (getRecentBrowsing sample (JNum 200) (JNum 50) (JBool false)
         initial_state)
  = inr [ {| re_url := "https://github.com/rocq";
             re_title := "Rocq on GitHub";
             re_last_visit_date := "1699999400";
             re_visit_count := 2; re_domain := None |};
          {| re_url := "https://example.org/"; re_title := "Untitled";
             re_last_visit_date := "1699998400";
             re_visit_count := 1; re_domain := None |};
          {| re_url := "https://github.com/rocq";
             re_title := "Rocq on GitHub";
             re_last_visit_date := "1699326400";
             re_visit_count := 2; re_domain := None |} ].
Proof. vm_compute. reflexivity. Qed.

(** ** The hours of get_recent_browsing *)

(** C7, as the code has it.  The handler does not compare [hours] with the
    bounds 1 and 168 that the schema declares: any number of hours other
    than 0 goes to [getRecentBrowsing] as it is and is reported in the
    header of the text, and the result or failure of that call is what
    the tool answers. *)
Theorem recent_browsing_hours_unchecked (w : World)
    (args : gmap string JsVal) (h : Z) (st : ModuleState) :
  args !! "hours" = Some (JNum h) ->
  h <> 0 ->
  callTool w
    {| req_name := "get_recent_browsing"; req_arguments := Some args |} st
  = let limit := or_else (default JUndefined (args !! "limit")) (JNum 50) in
    let details :=
      strict_ne_false (default JUndefined (args !! "include_visit_details")) in
    match getRecentBrowsing w (JNum h) limit (JBool details) st with
    | (inr entries, st') =>
        (inr (text_result (recent_text (JNum h) limit details entries)), st')
    | (inl error, st') => (inr (text_result (recent_error_text error)), st')
    end.
Proof.
  intros Hh Hnz. unfold callTool, get_recent_browsing. simpl.
  unfold try_catch, Eff.bind, prop, ret. simpl. rewrite Hh. simpl.
  assert (Hor : or_else (JNum h) (JNum 24) = JNum h).
  { unfold or_else. simpl. apply Z.eqb_neq in Hnz. now rewrite Hnz. }
  rewrite !Hor.
  match goal with |- context [getRecentBrowsing w ?a ?b ?c st] =>
    destruct (getRecentBrowsing w a b c st) as [[e|entries] st'] end;
    reflexivity.
Qed.

Lemma recent_browsing_hours_unchecked_witness :
  callTool sample
    {| req_name := "get_recent_browsing";
       req_arguments := Some {[ "hours" := JNum 200 ]} |} initial_state
  = match getRecentBrowsing sample (JNum 200) (JNum 50) (JBool true)
            initial_state with
    | (inr entries, st') =>
        (inr (text_result (recent_text (JNum 200) (JNum 50) true entries)),
         st')
    | (inl error, st') => (inr (text_result (recent_error_text error)), st')
    end.
Proof.
  refine (eq_trans
            (recent_browsing_hours_unchecked sample {[ "hours" := JNum 200 ]}
               200 initial_state _ _) _).
  - reflexivity.
  - lia.
  - vm_compute. reflexivity.
Defined.

(** Absent or zero hours become the default 24. *)
Lemma recent_browsing_hours_default (w : World) (args : gmap string JsVal)
    (st : ModuleState) :
  args !! "hours" = None \/ args !! "hours" = Some (JNum 0) ->
  callTool w
    {| req_name := "get_recent_browsing"; req_arguments := Some args |} st
  = callTool w
      {| req_name := "get_recent_browsing";
         req_arguments := Some (<["hours" := JNum 24]> args) |} st.
Proof.
  intros Hh. unfold callTool, get_recent_browsing. simpl.
  unfold try_catch, Eff.bind, prop, ret. simpl.
  rewrite lookup_insert_eq, !lookup_insert_ne by discriminate.
  destruct Hh as [-> | ->]; reflexivity.
Qed.

(** C7 as stated fails at [hours = 200].  The schema declares the bounds
    1 and 168, yet the call is answered with the activity of the last 200
    hours: [getRecentBrowsing] receives 200, and the three visits listed
    include one that is older than 168 hours, which the same call with
    [hours = 168] leaves out. *)
Lemma recent_browsing_hours_counterexample :
  declared_bounds <$> declared "get_recent_browsing" "hours"
  = Some (Some 1, Some 168)
  /\ (exists text st',
        callTool sample
          {| req_name := "get_recent_browsing";
             req_arguments := Some {[ "hours" := JNum 200 ]} |}
          initial_state
        = (inr (text_result text), st')
        /\ trace st'
           = [CallLocateChromeProfile; CallQueryHistory;
              CallGetRecentBrowsing (JNum 200) (JNum 50) (JBool true)]
        /\ includes text "Recent browsing activity (last 200 hours):" = true
        /\ includes text "Last visited: 1699326400" = true
        /\ includes text "Total entries: 3" = true)
  /\ (exists text st',
        callTool sample
          {| req_name := "get_recent_browsing";
             req_arguments := Some {[ "hours" := JNum 168 ]} |}
          initial_state
        = (inr (text_result text), st')
        /\ includes text "Last visited: 1699326400" = false
        /\ includes text "Total entries: 2" = true)
  /\ 1699326400 * 1000 < date_now sample - 168 * 3600000.
Proof.
  split; [reflexivity|]. split; [|split].
  - eexists. eexists. split; [vm_compute; reflexivity|].
    repeat split; vm_compute; reflexivity.
  - eexists. eexists. split; [vm_compute; reflexivity|].
    repeat split; vm_compute; reflexivity.
  - vm_compute. reflexivity.
Qed.

(** ** getHistoryStats on a store without visited pages *)

(** The aggregate over no rows. *)
Lemma getHistoryStats_no_visited_rows (w : World) (st : ModuleState)
    (db : Database) :
  opened w st = Some db ->
  Forall (fun row => urls_visit_count row <= 0) (urls db) ->
  exists st',
    getHistoryStats w st
    = (inr (Some {| total_urls := 0; total_visits := None;
                    earliest_visit := None; latest_visit := None |}), st').
Proof.
  intros Hdb Hnone. unfold getHistoryStats.
  unfold Eff.bind at 1. unfold called, modify.
  match goal with |- context [Eff.bind _ _ ?s] => set (st1 := s) end.
  assert (Hdb1 : opened w st1 = Some db) by exact Hdb.
  destruct (queryHistory_opened w (stats_query w) st1 db Hdb1) as [st' Hq].
  unfold Eff.bind. rewrite Hq. unfold stats_query.
  assert (Hf : List.filter (fun row => 0 <? urls_visit_count row) (urls db)
               = []).
  { induction Hnone as [|row rows Hrow _ IH]; simpl; [reflexivity|].
    apply Z.ltb_ge in Hrow. now rewrite Hrow. }
  rewrite Hf. simpl. unfold ret. eauto.
Qed.

(** C9.  On a store that opens and has no row with [visit_count > 0],
    [getHistoryStats] does not throw: it returns the one aggregate row,
    with [total_urls = 0] and NULL for the sum and for the earliest and
    latest visit. *)
Theorem history_stats_of_empty_store (w : World) (st : ModuleState)
    (db : Database) :
  opened w st = Some db ->
  Forall (fun row => urls_visit_count row <= 0) (urls db) ->
  exists st',
    getHistoryStats w st
    = (inr (Some {| total_urls := 0; total_visits := None;
                    earliest_visit := None; latest_visit := None |}), st').
Proof. exact (getHistoryStats_no_visited_rows w st db). Qed.

Lemma history_stats_of_empty_store_witness :
  exists st',
    getHistoryStats unvisited initial_state
    = (inr (Some {| total_urls := 0; total_visits := None;
                    earliest_visit := None; latest_visit := None |}), st').
Proof.
  apply (history_stats_of_empty_store unvisited initial_state unvisited_db).
  - reflexivity.
  - repeat constructor. simpl. lia.
Defined.

(** The get_history_stats tool on such a store: formatting the NULL sum
    raises a TypeError inside the [try], so the tool answers with the
    error text rather than with the statistics. *)
Lemma get_history_stats_of_empty_store (w : World) (st : ModuleState)
    (db : Database) :
  opened w st = Some db ->
  Forall (fun row => urls_visit_count row <= 0) (urls db) ->
  exists st',
    callTool w {| req_name := "get_history_stats"; req_arguments := Some ∅ |} st
    = (inr (text_result
         "Error getting history statistics: Cannot read properties of null (reading 'toLocaleString')"),
       st').
Proof.
  intros Hdb Hnone.
  destruct (getHistoryStats_no_visited_rows w st db Hdb Hnone) as [st' H].
  exists st'. unfold callTool, get_history_stats. simpl.
  unfold try_catch, Eff.bind. rewrite H. reflexivity.
Qed.

(** ** Bookmarks *)

Section BookmarkFacts.

Variable w : World.


(** [extractBookmarks] concatenates what the children contribute, in
    their order. *)
Lemma extractBookmarks_children (bookmarkNode : BookmarkNode)
    (folderPath : string) :
  extractBookmarks w bookmarkNode folderPath
  = match node_children bookmarkNode with
    | Some children => flat_map (visit_child w folderPath) children
    | None => []
    end.
Proof.
  destruct bookmarkNode as [ty nm u d [children|]]; simpl; [|reflexivity].
  induction children as [|child rest IH]; simpl; [reflexivity|].
  rewrite IH. reflexivity.
Qed.

Lemma newFolderPath_name (folderPath name : string) :
  newFolderPath folderPath (Some name) = path_with folderPath name.
Proof. reflexivity. Qed.


Lemma filter_all {A : Type} (f : A -> bool) (l : list A) :
  (forall x, f x = true) -> List.filter f l = l.
Proof.
  intros Hf. induction l as [|x l IH]; simpl; [reflexivity|].
  now rewrite Hf, IH.
Qed.

(** [getBookmarks] reads the file, then flattens and filters. *)
Lemma getBookmarks_eq (targetFolder : option string) (st : ModuleState) :
  getBookmarks w targetFolder st
  = match (called CallGetBookmarks;; readBookmarks w) st with
    | (inr bookmarksData, st') =>
        (inr (match targetFolder with
              | Some t =>
                  List.filter (fun b => includes_ci (folder b) t)
                    (all_bookmarks w bookmarksData)
              | None => all_bookmarks w bookmarksData
              end), st')
    | (inl e, st') => (inl e, st')
    end.
Proof.
  unfold getBookmarks, Eff.bind. simpl.
  match goal with |- context [readBookmarks w ?s] =>
    destruct (readBookmarks w s) as [[e|data] st'] end; [reflexivity|].
  destruct targetFolder as [t|]; [|reflexivity].
  destruct (String.eqb_spec t "") as [->|_]; [|reflexivity].
  unfold ret. rewrite filter_all; [reflexivity|].
  intros b. unfold includes_ci. apply includes_empty.
Qed.

End BookmarkFacts.




(** Under [getBookmarks] the path starts at the name of the root, so a
    leaf directly below [bookmark_bar] is filed under [bookmark_bar]. *)
Example leaf_below_a_root (w : World) :
  all_bookmarks w shallow_bookmarks
  = [ {| bm_title := Some "X"; bm_url := Some "http://x";
         dateAdded := date_of_date_added w None;
         folder := "bookmark_bar" |} ].
Proof. reflexivity. Qed.

(** The example end to end, through the file of a profile. *)
Example getBookmarks_example :
  fst (getBookmarks bookmarked None initial_state)
  = inr [ {| bm_title := Some "X"; bm_url := Some "http://x";
             dateAdded := None; folder := "bookmark_bar/Work" |} ]
  /\ fst (getBookmarks bookmarked (Some "WORK") initial_state)
     = inr [ {| bm_title := Some "X"; bm_url := Some "http://x";
                dateAdded := None; folder := "bookmark_bar/Work" |} ]
  /\ fst (getBookmarks bookmarked (Some "other") initial_state) = inr [].
Proof. repeat split; vm_compute; reflexivity. Qed.

(** * Further properties of the code *)

(** ** Profile discovery and the cached paths *)

Ltac run_eff :=
  unfold try_catch, Eff.bind, called, set_paths, modify, get, ret, throw;
  simpl.

Section CacheFacts.

Variable w : World.

Lemma find_first {A : Type} (f : A -> bool) (l : list A) (x : A) :
  List.find f l = Some x ->
  exists before after,
    l = before ++ x :: after /\ f x = true
    /\ Forall (fun y => f y = false) before.
Proof.
  induction l as [|y l IH]; simpl; [discriminate|].
  destruct (f y) eqn:Hy.
  - intros [= ->]. exists [], l. repeat split; [assumption | constructor].
  - intros H. destruct (IH H) as (before & after & -> & Hx & Hb).
    exists (y :: before), after. repeat split; [assumption|].
    now constructor.
Qed.

Lemma find_none {A : Type} (f : A -> bool) (l : list A) :
  List.find f l = None <-> Forall (fun y => f y = false) l.
Proof.
  induction l as [|y l IH]; simpl.
  - split; [constructor | reflexivity].
  - destruct (f y) eqn:Hy.
    + split; [discriminate|]. intros H. inversion H. congruence.
    + rewrite IH. split; [now constructor | now inversion 1].
Qed.

Lemma locate_in_message (paths : list string) (st : ModuleState) :
  List.find (accepts w) paths = None ->
  locate_in w paths st = (inl (Error (not_found_message w)), st).
Proof.
  induction paths as [|p paths IH]; simpl; [reflexivity|].
  unfold accepts at 1.
  destruct (fs_access w p); simpl; [|exact IH].
  destruct (fs_access w (path_join p "History")); simpl; [discriminate|].
  destruct (fs_access w (path_join p "Bookmarks")); simpl;
    [discriminate | exact IH].
Qed.

(** What [locateChromeProfile] does, by the first acceptable candidate. *)
Lemma locateChromeProfile_eq (st : ModuleState) :
  locateChromeProfile w st
  = match found_profile w with
    | Some p =>
        (inr p,
         {| chromeProfilePath := Some p;
            historyDbPath := Some (path_join p "History");
            bookmarksPath := Some (path_join p "Bookmarks");
            trace := CallLocateChromeProfile :: trace st |})
    | None =>
        (inl (Error (not_found_message w)),
         {| chromeProfilePath := chromeProfilePath st;
            historyDbPath := historyDbPath st;
            bookmarksPath := bookmarksPath st;
            trace := CallLocateChromeProfile :: trace st |})
    end.
Proof.
  unfold locateChromeProfile, found_profile. run_eff.
  match goal with |- context [locate_in w ?ps ?s] =>
    pose proof (locate_in_spec w ps s) as Hl;
    pose proof (locate_in_message ps s) as Hm end.
  destruct (List.find (accepts w) (possiblePaths w)) as [p|].
  - exact Hl.
  - now apply Hm.
Qed.

End CacheFacts.

(** X1.  [locateChromeProfile] takes the first candidate directory, in the
    order of the list, that is accessible and holds a History or a
    Bookmarks file: every candidate before it was rejected.  It records
    the directory and the two file paths below it, whatever was cached
    before. *)
Theorem locateChromeProfile_first_candidate (w : World) (st st' : ModuleState)
    (p : string) :
  locateChromeProfile w st = (inr p, st') ->
  (exists before after,
     possiblePaths w = before ++ p :: after
     /\ Forall (fun c => accepts w c = false) before)
  /\ fs_access w p = true
  /\ (fs_access w (path_join p "History") = true
      \/ fs_access w (path_join p "Bookmarks") = true)
  /\ chromeProfilePath st' = Some p
  /\ historyDbPath st' = Some (path_join p "History")
  /\ bookmarksPath st' = Some (path_join p "Bookmarks").
Proof.
  rewrite locateChromeProfile_eq. unfold found_profile.
  destruct (List.find (accepts w) (possiblePaths w)) as [p'|] eqn:Hfind;
    [|discriminate].
  intros [= -> <-].
  destruct (find_first _ _ _ Hfind) as (before & after & Hl & Hacc & Hb).
  unfold accepts in Hacc. apply andb_true_iff in Hacc as [Ha Hf].
  apply orb_true_iff in Hf. simpl. repeat split; eauto.
Qed.

Lemma locateChromeProfile_first_candidate_witness :
  fs_access sample "/home/user/.config/google-chrome/Default" = true
  /\ historyDbPath (with_profile initial_state
                      "/home/user/.config/google-chrome/Default")
     = Some "/home/user/.config/google-chrome/Default/History".
Proof.
  assert (Hrun : locateChromeProfile sample initial_state
                 = (inr "/home/user/.config/google-chrome/Default",
                    {| chromeProfilePath :=
                         Some "/home/user/.config/google-chrome/Default";
                       historyDbPath :=
                         Some "/home/user/.config/google-chrome/Default/History";
                       bookmarksPath :=
                         Some "/home/user/.config/google-chrome/Default/Bookmarks";
                       trace := [CallLocateChromeProfile] |}))
    by (vm_compute; reflexivity).
  destruct (locateChromeProfile_first_candidate sample initial_state _ _ Hrun)
    as (_ & Hacc & _ & _ & Hhist & _).
  split; [exact Hacc | exact Hhist].
Defined.

(** X2.  [locateChromeProfile] throws exactly when no candidate is
    acceptable; the error names the paths searched, and the cached paths
    stay as they were. *)
Theorem locateChromeProfile_fails_iff (w : World) (st : ModuleState) :
  (exists e st', locateChromeProfile w st = (inl e, st'))
  <-> Forall (fun c => accepts w c = false) (possiblePaths w).
Proof.
  rewrite locateChromeProfile_eq, <- find_none. unfold found_profile.
  destruct (List.find (accepts w) (possiblePaths w)) as [p|]; split.
  - intros (e & st' & H). discriminate.
  - discriminate.
  - reflexivity.
  - eauto.
Qed.

(** X3.  A failed discovery is not remembered: it throws the
    installation-not-found error and leaves the cached paths untouched. *)
Theorem locateChromeProfile_failure (w : World) (st st' : ModuleState)
    (e : Exn) :
  locateChromeProfile w st = (inl e, st') ->
  e = Error (not_found_message w) /\ same_paths st st'.
Proof.
  rewrite locateChromeProfile_eq.
  destruct (found_profile w); [discriminate|].
  intros [= <- <-]. split; [reflexivity|]. repeat split.
Qed.

Lemma locateChromeProfile_failure_witness :
  same_paths initial_state
    {| chromeProfilePath := None; historyDbPath := None;
       bookmarksPath := None; trace := [CallLocateChromeProfile] |}.
Proof.
  assert (Hrun : locateChromeProfile no_chrome initial_state
                 = (inl (Error (not_found_message no_chrome)),
                    {| chromeProfilePath := None; historyDbPath := None;
                       bookmarksPath := None;
                       trace := [CallLocateChromeProfile] |}))
    by (vm_compute; reflexivity).
  exact (proj2 (locateChromeProfile_failure no_chrome initial_state _ _ Hrun)).
Defined.

Section InvariantFacts.

Variable w : World.

Lemma preserves_ret {A : Type} (P : ModuleState -> Prop) (a : A) :
  preserves P (ret a).
Proof. intros st r st' HP [= _ <-]. exact HP. Qed.

Lemma preserves_throw {A : Type} (P : ModuleState -> Prop) (e : Exn) :
  preserves P (@throw ModuleState A e).
Proof. intros st r st' HP [= _ <-]. exact HP. Qed.

Lemma preserves_bind {A B : Type} (P : ModuleState -> Prop)
    (c : M ModuleState A) (k : A -> M ModuleState B) :
  preserves P c -> (forall a, preserves P (k a)) ->
  preserves P (Eff.bind c k).
Proof.
  intros Hc Hk st r st' HP. unfold Eff.bind.
  destruct (c st) as [[e|a] st1] eqn:Hrun.
  - intros [= _ <-]. exact (Hc _ _ _ HP Hrun).
  - intros Hrun2. exact (Hk a _ _ _ (Hc _ _ _ HP Hrun) Hrun2).
Qed.

Lemma preserves_try_catch {A : Type} (P : ModuleState -> Prop)
    (body : M ModuleState A) (handler : Exn -> M ModuleState A) :
  preserves P body -> (forall e, preserves P (handler e)) ->
  preserves P (try_catch body handler).
Proof.
  intros Hb Hh st r st' HP. unfold try_catch.
  destruct (body st) as [[e|a] st1] eqn:Hrun.
  - intros Hrun2. exact (Hh e _ _ _ (Hb _ _ _ HP Hrun) Hrun2).
  - intros [= _ <-]. exact (Hb _ _ _ HP Hrun).
Qed.

Lemma preserves_called (c : Call) : preserves paths_consistent (called c).
Proof. intros st r st' HP [= _ <-]. exact HP. Qed.

Lemma preserves_locateChromeProfile :
  preserves paths_consistent (locateChromeProfile w).
Proof.
  intros st r st' HP. rewrite locateChromeProfile_eq.
  destruct (found_profile w) as [p|]; intros [= _ <-].
  - right. exists p. repeat split.
  - exact HP.
Qed.

Lemma preserves_ensureInitialized :
  preserves paths_consistent (ensureInitialized w).
Proof.
  intros st r st' HP. unfold ensureInitialized, Eff.bind at 1, get.
  destruct (unset (chromeProfilePath st)).
  - exact (preserves_bind _ _ _ preserves_locateChromeProfile
             (fun _ => preserves_ret _ tt) st r st' HP).
  - exact (preserves_ret _ tt st r st' HP).
Qed.

Lemma preserves_queryHistory {A : Type}
    (query : Database -> string + list A) :
  preserves paths_consistent (queryHistory w query).
Proof.
  unfold queryHistory.
  apply preserves_bind; [apply preserves_called|]. intros _.
  apply preserves_bind; [apply preserves_ensureInitialized|]. intros _.
  intros st r st' HP. unfold Eff.bind, get.
  destruct (historyDbPath st) as [path|];
    [|exact (preserves_throw _ _ st r st' HP)].
  destruct (String.eqb path "");
    [exact (preserves_throw _ _ st r st' HP)|].
  destruct (history_file w path) as [msg|msg|db];
    try exact (preserves_throw _ _ st r st' HP).
  destruct (query db);
    [exact (preserves_throw _ _ st r st' HP)
    | exact (preserves_ret _ _ st r st' HP)].
Qed.

Lemma preserves_readBookmarks :
  preserves paths_consistent (readBookmarks w).
Proof.
  unfold readBookmarks.
  apply preserves_bind; [apply preserves_called|]. intros _.
  apply preserves_bind; [apply preserves_ensureInitialized|]. intros _.
  intros st r st' HP. unfold Eff.bind, get.
  destruct (bookmarksPath st) as [path|];
    [|exact (preserves_throw _ _ st r st' HP)].
  destruct (bookmarks_file w path);
    (exact (preserves_throw _ _ st r st' HP))
    || (exact (preserves_ret _ _ st r st' HP)).
Qed.

Lemma preserves_callTool (request : CallToolRequest) :
  preserves paths_consistent (callTool w request).
Proof.
  unfold callTool.
  repeat match goal with
  | |- preserves _ (if ?c then _ else _) => destruct c
  end.
  - unfold search_history.
    apply preserves_try_catch; [|intros e; apply preserves_ret].
    unfold prop. destruct (req_arguments request) as [args|];
      [|intros st r st' HP [= _ <-]; exact HP].
    repeat (apply preserves_bind; [apply preserves_ret|]; intros ?).
    match goal with |- preserves _ (if ?c then _ else _) => destruct c end;
      [apply preserves_ret|].
    apply preserves_bind; [|intros ?; apply preserves_ret].
    unfold searchHistory.
    apply preserves_bind; [apply preserves_called|]. intros _.
    apply preserves_bind.
    + unfold hasSearchQuery.
      match goal with |- preserves _ (if ?c then _ else _) => destruct c end;
        [|apply preserves_ret].
      match goal with |- preserves _ (match ?v with _ => _ end) =>
        destruct v end;
        (apply preserves_throw) || (apply preserves_ret).
    + intros has. apply preserves_queryHistory.
  - apply preserves_ret.
  - unfold analyze_browsing_patterns, prop.
    destruct (req_arguments request) as [args|];
      [|intros st r st' HP [= _ <-]; exact HP].
    apply preserves_bind; [apply preserves_ret|]. intros ?.
    apply preserves_ret.
  - unfold export_data, prop.
    destruct (req_arguments request) as [args|];
      [|intros st r st' HP [= _ <-]; exact HP].
    apply preserves_bind; [apply preserves_ret|]. intros ?.
    apply preserves_ret.
  - unfold get_recent_browsing.
    apply preserves_try_catch; [|intros e; apply preserves_ret].
    unfold prop. destruct (req_arguments request) as [args|];
      [|intros st r st' HP [= _ <-]; exact HP].
    repeat (apply preserves_bind; [apply preserves_ret|]; intros ?).
    apply preserves_bind; [|intros ?; apply preserves_ret].
    unfold getRecentBrowsing.
    apply preserves_bind; [apply preserves_called|]. intros _.
    apply preserves_bind; [apply preserves_queryHistory|].
    intros ?. apply preserves_ret.
  - unfold get_history_stats.
    apply preserves_try_catch; [|intros e; apply preserves_ret].
    apply preserves_bind.
    + unfold getHistoryStats.
      apply preserves_bind; [apply preserves_called|]. intros _.
      apply preserves_bind; [apply preserves_queryHistory|].
      intros ?. apply preserves_ret.
    + intros [stats|]; [|apply preserves_throw].
      destruct (total_visits stats);
        [apply preserves_ret | apply preserves_throw].
  - apply preserves_throw.
Qed.

End InvariantFacts.

(** X4.  The three cached paths stay consistent across every tool call, in
    whatever world it runs and however it ends: they are unset together,
    or they are a profile directory with its History and its Bookmarks
    path. *)
Theorem callTool_keeps_paths_consistent (w : World)
    (request : CallToolRequest) (st st' : ModuleState)
    (r : Exn + ToolResult) :
  paths_consistent st ->
  callTool w request st = (r, st') ->
  paths_consistent st'.
Proof. intros HP Hrun. exact (preserves_callTool w request st r st' HP Hrun). Qed.

Lemma callTool_keeps_paths_consistent_witness :
  paths_consistent
    {| chromeProfilePath := Some "/home/user/.config/google-chrome/Default";
       historyDbPath :=
         Some "/home/user/.config/google-chrome/Default/History";
       bookmarksPath :=
         Some "/home/user/.config/google-chrome/Default/Bookmarks";
       trace := [CallLocateChromeProfile; CallQueryHistory;
                 CallGetHistoryStats] |}.
Proof.
  assert (Hinit : paths_consistent initial_state).
  { left. repeat split. }
  eapply (callTool_keeps_paths_consistent unvisited
            {| req_name := "get_history_stats"; req_arguments := None |}
            initial_state _ _ Hinit).
  vm_compute. reflexivity.
Defined.

Section QueryCacheFacts.

Variable w : World.

(** With a profile cached, a query goes straight to the cached History
    path: no discovery, and the state only gains the entry of the trace. *)
Lemma queryHistory_cached {A : Type} (query : Database -> string + list A)
    (st : ModuleState) :
  unset (chromeProfilePath st) = false ->
  exists r,
    queryHistory w query st
    = (r, {| chromeProfilePath := chromeProfilePath st;
             historyDbPath := historyDbPath st;
             bookmarksPath := bookmarksPath st;
             trace := CallQueryHistory :: trace st |}).
Proof.
  intros Hu. unfold queryHistory, ensureInitialized. run_eff. rewrite Hu.
  destruct (historyDbPath st) as [path|]; simpl; [|eauto].
  destruct (String.eqb path ""); [eauto|].
  destruct (history_file w path); eauto.
  destruct (query db); eauto.
Qed.

(** Rows only come back with a profile cached. *)
Lemma queryHistory_rows_cached {A : Type}
    (query : Database -> string + list A) (st st' : ModuleState)
    (rows : list A) :
  ~ In ""%string (possiblePaths w) ->
  queryHistory w query st = (inr rows, st') ->
  unset (chromeProfilePath st') = false.
Proof.
  intros Hpaths. unfold queryHistory, ensureInitialized. run_eff.
  destruct (unset (chromeProfilePath st)) eqn:Hu.
  - match goal with |- context [locateChromeProfile w ?s] =>
      rewrite (locateChromeProfile_eq w s) end.
    destruct (found_profile w) as [p|] eqn:Hfind; simpl; [|discriminate].
    rewrite path_join_nonempty.
    destruct (history_file w (path_join p "History")); try discriminate.
    destruct (query db); [discriminate|]. intros [= _ <-]. simpl.
    apply find_first in Hfind as (before & after & Hl & _).
    destruct (String.eqb_spec p "") as [->|]; [|reflexivity].
    exfalso. apply Hpaths. rewrite Hl. apply List.in_elt.
  - destruct (historyDbPath st) as [path|]; simpl; [|discriminate].
    destruct (String.eqb path ""); [discriminate|].
    destruct (history_file w path); try discriminate.
    destruct (query db); [discriminate|]. intros [= _ <-]. exact Hu.
Qed.

(** Without a profile a query fails and the cache stays empty. *)
Lemma queryHistory_not_found {A : Type}
    (query : Database -> string + list A) (st : ModuleState) :
  found_profile w = None ->
  unset (chromeProfilePath st) = true ->
  queryHistory w query st
  = (inl (Error (not_found_message w)),
     {| chromeProfilePath := chromeProfilePath st;
        historyDbPath := historyDbPath st;
        bookmarksPath := bookmarksPath st;
        trace := CallLocateChromeProfile :: CallQueryHistory :: trace st |}).
Proof.
  intros Hfind Hu. unfold queryHistory, ensureInitialized. run_eff.
  rewrite Hu.
  match goal with |- context [locateChromeProfile w ?s] =>
    rewrite (locateChromeProfile_eq w s) end.
  rewrite Hfind. reflexivity.
Qed.

Lemma append_literal_ne (c d : ascii) (s t u : string) :
  c <> d -> String c s +:+ t <> String d u.
Proof. intros Hne [= H _]. contradiction. Qed.

End QueryCacheFacts.

(** X5.  The profile is located once.  After a query that returned rows,
    a later query, in whatever world (the directory may be gone), does
    not search for the profile again: it only adds its own entry to the
    trace and leaves the cached paths as they are. *)
Theorem profile_located_once {A B : Type} (w w' : World)
    (query : Database -> string + list A)
    (query' : Database -> string + list B)
    (st st1 : ModuleState) (rows : list A) :
  ~ In ""%string (possiblePaths w) ->
  queryHistory w query st = (inr rows, st1) ->
  exists r st2,
    queryHistory w' query' st1 = (r, st2)
    /\ trace st2 = CallQueryHistory :: trace st1
    /\ same_paths st1 st2.
Proof.
  intros Hpaths Hrun.
  pose proof (queryHistory_rows_cached w query st st1 rows Hpaths Hrun) as Hu.
  destruct (queryHistory_cached w' query' st1 Hu) as [r Hr].
  eexists. eexists. split; [exact Hr|]. repeat split.
Qed.

Lemma profile_located_once_witness :
  exists r st2,
    queryHistory (moved_away sample) (stats_query (moved_away sample))
      {| chromeProfilePath := Some "/home/user/.config/google-chrome/Default";
         historyDbPath :=
           Some "/home/user/.config/google-chrome/Default/History";
         bookmarksPath :=
           Some "/home/user/.config/google-chrome/Default/Bookmarks";
         trace := [CallLocateChromeProfile; CallQueryHistory] |}
    = (r, st2)
    /\ trace st2
       = [CallQueryHistory; CallLocateChromeProfile; CallQueryHistory].
Proof.
  assert (Hpaths : ~ In ""%string (possiblePaths sample)).
  { vm_compute. intuition discriminate. }
  assert (Hrun : queryHistory sample (stats_query sample) initial_state
                 = (inr [ {| total_urls := 2; total_visits := Some 3;
                             earliest_visit := Some "1699998400";
                             latest_visit := Some "1699999400" |} ],
                    {| chromeProfilePath :=
                         Some "/home/user/.config/google-chrome/Default";
                       historyDbPath :=
                         Some "/home/user/.config/google-chrome/Default/History";
                       bookmarksPath :=
                         Some "/home/user/.config/google-chrome/Default/Bookmarks";
                       trace := [CallLocateChromeProfile; CallQueryHistory] |}))
    by (vm_compute; reflexivity).
  destruct (profile_located_once sample (moved_away sample)
              (stats_query sample) (stats_query (moved_away sample))
              initial_state _ _ Hpaths Hrun)
    as (r & st2 & Hr & Htrace & _).
  exists r, st2. split; [exact Hr | exact Htrace].
Defined.

(** X6.  A failure to find the profile is not cached.  When no candidate
    is acceptable and no profile is cached a query throws the
    installation-not-found error; the same query issued afterwards in a
    world where the store opens runs against that store. *)
Theorem failed_discovery_is_retried {A B : Type} (w w' : World)
    (query : Database -> string + list A)
    (query' : Database -> string + list B)
    (st : ModuleState) (db : Database) :
  found_profile w = None ->
  unset (chromeProfilePath st) = true ->
  opened w' st = Some db ->
  exists st1,
    queryHistory w query st = (inl (Error (not_found_message w)), st1)
    /\ exists st2,
         queryHistory w' query' st1
         = (match query' db with
            | inr rows => inr rows
            | inl msg => inl (Error ("Database query failed: " +:+ msg))
            end, st2).
Proof.
  intros Hfind Hu Hdb.
  rewrite (queryHistory_not_found w query st Hfind Hu).
  eexists. split; [reflexivity|].
  apply queryHistory_opened. exact Hdb.
Qed.

Lemma failed_discovery_is_retried_witness :
  exists st1,
    queryHistory no_chrome (stats_query no_chrome) initial_state
    = (inl (Error (not_found_message no_chrome)), st1)
    /\ exists st2,
         queryHistory sample (stats_query sample) st1
         = (inr [ {| total_urls := 2; total_visits := Some 3;
                     earliest_visit := Some "1699998400";
                     latest_visit := Some "1699999400" |} ], st2).
Proof.
  apply (failed_discovery_is_retried no_chrome sample
           (stats_query no_chrome) (stats_query sample)
           initial_state sample_db).
  - reflexivity.
  - reflexivity.
  - reflexivity.
Defined.

(** X7.  From a state whose cached paths are consistent the error
    [History database path not found] is never thrown: a query that fails
    does so because the profile is not found, the History file does not
    open, or the engine rejects the query. *)
Theorem history_path_error_unreachable {A : Type} (w : World)
    (query : Database -> string + list A) (st st' : ModuleState) (e : Exn) :
  paths_consistent st ->
  queryHistory w query st = (inl e, st') ->
  e <> Error "History database path not found"
  /\ (e = Error (not_found_message w)
      \/ (exists msg,
            e = Error ("Failed to open Chrome History database: " +:+ msg))
      \/ (exists msg, e = Error ("Database query failed: " +:+ msg))).
Proof.
  intros HP Hrun.
  assert (Hcases :
    e = Error (not_found_message w)
    \/ (exists msg,
          e = Error ("Failed to open Chrome History database: " +:+ msg))
    \/ (exists msg, e = Error ("Database query failed: " +:+ msg))).
  { revert Hrun. unfold queryHistory, ensureInitialized. run_eff.
    destruct (unset (chromeProfilePath st)) eqn:Hu.
    - match goal with |- context [locateChromeProfile w ?s] =>
        rewrite (locateChromeProfile_eq w s) end.
      destruct (found_profile w) as [p|]; simpl.
      + rewrite path_join_nonempty.
        destruct (history_file w (path_join p "History")) as [msg|msg|db].
        * intros [= <- _]. eauto.
        * intros [= <- _]. eauto.
        * destruct (query db); [|discriminate]. intros [= <- _]. eauto.
      + intros [= <- _]. now left.
    - destruct HP as [(Hc & _ & _) | (p & Hc & Hh & _)].
      + rewrite Hc in Hu. discriminate.
      + rewrite Hh. simpl. rewrite path_join_nonempty.
        destruct (history_file w (path_join p "History")) as [msg|msg|db].
        * intros [= <- _]. eauto.
        * intros [= <- _]. eauto.
        * destruct (query db); [|discriminate]. intros [= <- _]. eauto. }
  split; [|exact Hcases].
  destruct Hcases as [-> | [[msg ->] | [msg ->]]]; intros [= H]; revert H;
    apply append_literal_ne; discriminate.
Qed.

Lemma history_path_error_unreachable_witness :
  Error (not_found_message no_chrome)
  <> Error "History database path not found".
Proof.
  assert (HP : paths_consistent initial_state).
  { left. repeat split. }
  assert (Hrun : queryHistory no_chrome (stats_query no_chrome) initial_state
                 = (inl (Error (not_found_message no_chrome)),
                    {| chromeProfilePath := None; historyDbPath := None;
                       bookmarksPath := None;
                       trace := [CallLocateChromeProfile; CallQueryHistory] |}))
    by (vm_compute; reflexivity).
  exact (proj1 (history_path_error_unreachable no_chrome
                  (stats_query no_chrome) initial_state _ _ HP Hrun)).
Defined.



(** ** searchHistory: blank queries, wrong types, unreadable dates *)

Section SearchEdgeFacts.

Variable w : World.

(** The outcome of a query depends on the cached paths only, not on the
    trace. *)
Lemma queryHistory_same_paths {A : Type}
    (query : Database -> string + list A) (st1 st2 : ModuleState) :
  same_paths st1 st2 ->
  fst (queryHistory w query st1) = fst (queryHistory w query st2).
Proof.
  intros (Hc & Hh & Hb). unfold queryHistory, ensureInitialized. run_eff.
  rewrite Hc.
  destruct (unset (chromeProfilePath st1)).
  - rewrite !locateChromeProfile_eq.
    destruct (found_profile w) as [p|]; simpl; [|reflexivity].
    rewrite path_join_nonempty.
    destruct (history_file w (path_join p "History")); try reflexivity.
    destruct (query db); reflexivity.
  - rewrite Hh. destruct (historyDbPath st1) as [path|]; simpl; [|reflexivity].
    destruct (String.eqb path ""); [reflexivity|].
    destruct (history_file w path); try reflexivity.
    destruct (query db); reflexivity.
Qed.

(** The clauses of a search without a text filter. *)
Lemma searchHistory_no_text (q : string) (options : SearchOptions)
    (st : ModuleState) :
  has_text q = false ->
  searchHistory w (JStr q) options st
  = queryHistory w
      (search_query w
         ((if truthy (startDate options)
           then [LastVisitGe (startTimestamp w (startDate options))] else [])
          ++ (if truthy (endDate options)
              then [LastVisitLe (endTimestamp w (endDate options))] else []))
         (Sql.bind (default_param (limit options) (JNum 50))))
      {| chromeProfilePath := chromeProfilePath st;
         historyDbPath := historyDbPath st;
         bookmarksPath := bookmarksPath st;
         trace := CallSearchHistory (JStr q) options :: trace st |}.
Proof.
  intros Hb. unfold searchHistory.
  unfold Eff.bind at 1. unfold called, modify.
  unfold Eff.bind at 1. rewrite hasSearchQuery_string, Hb.
  destruct (truthy (startDate options)), (truthy (endDate options));
    reflexivity.
Qed.

Lemma searchHistory_blank (q : string) (options : SearchOptions)
    (st : ModuleState) :
  blank q = true ->
  searchHistory w (JStr q) options st
  = queryHistory w
      (search_query w
         ((if truthy (startDate options)
           then [LastVisitGe (startTimestamp w (startDate options))] else [])
          ++ (if truthy (endDate options)
              then [LastVisitLe (endTimestamp w (endDate options))] else []))
         (Sql.bind (default_param (limit options) (JNum 50))))
      {| chromeProfilePath := chromeProfilePath st;
         historyDbPath := historyDbPath st;
         bookmarksPath := bookmarksPath st;
         trace := CallSearchHistory (JStr q) options :: trace st |}.
Proof.
  intros Hb. apply searchHistory_no_text. now apply has_text_blank.
Qed.

End SearchEdgeFacts.

(** X9.  A query of white space only is no query: [searchHistory] gives
    the same outcome for it as for the empty string, that is, the pages
    of the date range with no text filter. *)
Theorem blank_query_is_no_query (w : World) (q : string)
    (options : SearchOptions) (st : ModuleState) :
  blank q = true ->
  fst (searchHistory w (JStr q) options st)
  = fst (searchHistory w (JStr "") options st).
Proof.
  intros Hb.
  rewrite (searchHistory_blank w q options st Hb).
  rewrite (searchHistory_blank w "" options st eq_refl).
  apply queryHistory_same_paths. repeat split.
Qed.

Lemma blank_query_is_no_query_witness :
  fst (searchHistory sample (JStr "  ") no_options initial_state)
  = fst (searchHistory sample (JStr "") no_options initial_state).
Proof.
  apply (blank_query_is_no_query sample "  " no_options initial_state).
  reflexivity.
Defined.

(** X10.  The guard of the search_history tool lets a white-space query
    through.  With a query that is not empty but blank, and no dates, the
    tool does call [searchHistory], with limit 100 and no filter at all:
    on a store that opens with at most 100 pages the answer is built from
    every page of the store. *)
Theorem search_history_blank_query_lists_everything (w : World)
    (args : gmap string JsVal) (q : string) (st : ModuleState)
    (db : Database) :
  args !! "query" = Some (JStr q) ->
  q <> ""%string ->
  blank q = true ->
  args !! "start_date" = None ->
  args !! "end_date" = None ->
  args !! "limit" = None ->
  opened w st = Some db ->
  (length (urls db) <= 100)%nat ->
  exists entries st',
    callTool w
      {| req_name := "search_history"; req_arguments := Some args |} st
    = (inr (text_result
         (search_text w (JStr q) JUndefined JUndefined (JNum 100) entries)),
       st')
    /\ entries ≡ₚ List.map (select_entry w) (urls db).
Proof.
  intros Hq Hne Hb Hs He Hl Hdb Hlen.
  unfold callTool, search_history. simpl.
  unfold try_catch, Eff.bind at 1 2 3 4, prop, ret. simpl.
  rewrite Hq, Hs, He, Hl. simpl.
  assert (Hne' : String.eqb q "" = false) by now apply String.eqb_neq.
  assert (Hor : or_else (JStr q) (JStr "") = JStr q).
  { unfold or_else. simpl. now rewrite Hne'. }
  assert (Htruthy : truthy (JStr q) = true).
  { simpl. now rewrite Hne'. }
  rewrite !Hor, Htruthy. simpl.
  unfold Eff.bind. rewrite (searchHistory_blank w q _ _ Hb). simpl.
  match goal with |- context [queryHistory w ?query ?s] =>
    destruct (queryHistory_opened w query s db Hdb) as [st' Hrun] end.
  rewrite Hrun. clear Hrun. unfold search_query at 1.
  rewrite limit_int by reflexivity.
  simpl. eexists. eexists. split; [reflexivity|].
  rewrite firstn_all2.
  - apply Permutation_map.
    etransitivity; [apply (merge_sort_Permutation by_last_visit_desc)|].
    rewrite filter_all; [reflexivity|]. reflexivity.
  - rewrite List.length_map.
    rewrite (Permutation_length
               (merge_sort_Permutation by_last_visit_desc _)).
    rewrite filter_all; [|reflexivity]. simpl. lia.
Qed.

Lemma search_history_blank_query_lists_everything_witness :
  exists entries st',
    callTool sample
      {| req_name := "search_history";
         req_arguments := Some {[ "query" := JStr " " ]} |} initial_state
    = (inr (text_result
         (search_text sample (JStr " ") JUndefined JUndefined (JNum 100)
            entries)), st')
    /\ entries ≡ₚ List.map (select_entry sample) (urls sample_db).
Proof.
  apply (search_history_blank_query_lists_everything sample
           {[ "query" := JStr " " ]} " " initial_state sample_db);
    try reflexivity.
  - discriminate.
  - simpl. lia.
Defined.

(** X11.  A query that is a number or [true] makes [searchHistory] throw
    a TypeError before any database access; the tool reports it as an
    ordinary result, and only the call of [searchHistory] is traced. *)
Theorem search_history_query_not_a_string (w : World)
    (args : gmap string JsVal) (v : JsVal) (st : ModuleState) :
  args !! "query" = Some v ->
  truthy v = true ->
  (forall s, v <> JStr s) ->
  exists options,
    callTool w
      {| req_name := "search_history"; req_arguments := Some args |} st
    = (inr (text_result
         (search_error_text
            (TypeError "searchQuery.trim is not a function"))),
       {| chromeProfilePath := chromeProfilePath st;
          historyDbPath := historyDbPath st;
          bookmarksPath := bookmarksPath st;
          trace := CallSearchHistory v options :: trace st |}).
Proof.
  intros Hq Ht Hns. unfold callTool, search_history. simpl.
  unfold try_catch, Eff.bind at 1 2 3 4, prop, ret. simpl. rewrite Hq. simpl.
  assert (Hor : or_else v (JStr "") = v).
  { unfold or_else. now rewrite Ht. }
  rewrite Hor, Ht. simpl.
  unfold Eff.bind, searchHistory, called, modify, hasSearchQuery. simpl.
  rewrite Ht. eexists.
  destruct v as [| |b|k|s]; try discriminate; try reflexivity.
  exfalso. exact (Hns s eq_refl).
Qed.

Lemma search_history_query_not_a_string_witness :
  exists options,
    callTool sample
      {| req_name := "search_history";
         req_arguments := Some {[ "query" := JNum 42 ]} |} initial_state
    = (inr (text_result
         (search_error_text
            (TypeError "searchQuery.trim is not a function"))),
       {| chromeProfilePath := None; historyDbPath := None;
          bookmarksPath := None;
          trace := [CallSearchHistory (JNum 42) options] |}).
Proof.
  apply (search_history_query_not_a_string sample
           {[ "query" := JNum 42 ]} (JNum 42) initial_state).
  - reflexivity.
  - reflexivity.
  - intros s H. discriminate.
Defined.

Section UnreadableDateFacts.

Variable w : World.



End UnreadableDateFacts.



(** ** getRecentBrowsing: order, limit and shape of the entries *)



(** ** getMostVisitedSites and getHistoryByDateRange *)

#[global] Instance by_visit_count_desc_trans : Transitive by_visit_count_desc.
Proof. unfold by_visit_count_desc. intros a b c. lia. Qed.

#[global] Instance by_visit_count_desc_total : Total by_visit_count_desc.
Proof. unfold by_visit_count_desc. intros a b. lia. Qed.

(** X14.  [getMostVisitedSites] returns the top of the visited pages.
    The entries are those of a list of pages of the opened store with a
    positive visit count, in descending order of visit count, at most [n]
    for a limit [n >= 0]; the counts the entries report are positive and
    in descending order too; and every visited page is among these pages
    unless the limit was reached, in which case none of them has a lower
    visit count than that page.  On a store that opens it does return,
    for a limit that is an integer of the engine (of magnitude below
    [2 ^ 63]). *)
Theorem most_visited_sites (w : World) (st : ModuleState) (limit : JsVal)
    (n : Z) :
  default_param limit (JNum 20) = JNum n ->
  (forall entries st',
     getMostVisitedSites w limit st = (inr entries, st') ->
     exists db kept,
       opened w st = Some db
       /\ entries = List.map (select_site w) kept
       /\ Forall (fun row => In row (urls db) /\ 0 < urls_visit_count row)
            kept
       /\ StronglySorted by_visit_count_desc kept
       /\ Forall (fun e => 0 < site_visit_count e) entries
       /\ StronglySorted
            (fun a b => site_visit_count b <= site_visit_count a) entries
       /\ (0 <= n -> Z.of_nat (length entries) <= n)
       /\ forall row,
            In row (urls db) -> 0 < urls_visit_count row ->
            In row kept
            \/ (0 <= n /\ Z.of_nat (length entries) = n
                /\ Forall
                     (fun r => urls_visit_count row <= urls_visit_count r)
                     kept))
  /\ (forall db,
        opened w st = Some db ->
        Z.abs n < 2 ^ 63 ->
        exists entries st',
          getMostVisitedSites w limit st = (inr entries, st')).
Proof.
  intros Hn. unfold getMostVisitedSites. rewrite Hn. simpl Sql.bind. split.
  - intros entries st' Hrun.
    apply queryHistory_inv in Hrun as (db & Hdb & Hrun).
    unfold most_visited_query in Hrun.
    apply (select_map_top by_visit_count_desc) in Hrun
      as (kept & rest & -> & Hperm & Hsorted & Hlim).
    exists db, kept. split; [exact Hdb|]. split; [reflexivity|].
    destruct (Hlim n eq_refl) as [Hneg Hlen].
    assert (Hkept : forall row, In row kept ->
              In row (urls db) /\ 0 < urls_visit_count row).
    { intros row Hrow.
      assert (Hm : In row (kept ++ rest))
        by (apply List.in_app_iff; now left).
      apply (Permutation_in _ Hperm) in Hm.
      apply List.filter_In in Hm as [Hin Hc]. apply Z.ltb_lt in Hc. auto. }
    assert (Hs : StronglySorted by_visit_count_desc kept)
      by exact (StronglySorted_app_1_l _ _ _ Hsorted).
    split; [|split; [exact Hs|split; [|split; [|split]]]].
    + apply List.Forall_forall. exact Hkept.
    + apply List.Forall_forall. intros e He.
      apply List.in_map_iff in He as (row & <- & Hrow).
      simpl. apply to_double_pos. now apply Hkept.
    + apply (map_StronglySorted by_visit_count_desc); [|exact Hs].
      intros a b H. simpl. now apply to_double_mono.
    + intros Hge. rewrite List.length_map, (Hlen Hge). lia.
    + intros row Hin Hpos.
      assert (Hrow : In row (kept ++ rest)).
      { eapply Permutation_in; [symmetry; exact Hperm|].
        apply List.filter_In. split; [exact Hin|]. now apply Z.ltb_lt. }
      apply List.in_app_iff in Hrow as [Hk|Hrest].
      * now left.
      * right.
        assert (Hge : 0 <= n).
        { destruct (Z.lt_ge_cases n 0) as [Hlt|]; [|assumption].
          rewrite (Hneg Hlt) in Hrest. destruct Hrest. }
        split; [exact Hge|]. split.
        -- rewrite List.length_map, (Hlen Hge).
           apply Permutation_length in Hperm.
           rewrite List.length_app in Hperm.
           destruct rest; [destruct Hrest|]. simpl in Hperm. lia.
        -- apply List.Forall_forall. intros x Hx.
           exact (kept_before_rest by_visit_count_desc kept rest x row
                    Hsorted Hx Hrest).
  - intros db Hdb Hrange.
    match goal with |- context [queryHistory w ?query ?s] =>
      destruct (queryHistory_opened w query s db Hdb) as [st' Hrun] end.
    unfold most_visited_query in Hrun at 2.
    rewrite (limit_int _ _ _ Hrange) in Hrun. eauto.
Qed.

Lemma most_visited_sites_witness :
  exists entries st',
    getMostVisitedSites sample (JNum 1) initial_state = (inr entries, st')
    /\ Forall (fun e => 0 < site_visit_count e) entries
    /\ Z.of_nat (length entries) <= 1.
Proof.
  destruct (most_visited_sites sample initial_state (JNum 1) 1 eq_refl)
    as [Hsound Hreturns].
  destruct (Hreturns sample_db eq_refl eq_refl) as (entries & st' & Hrun).
  destruct (Hsound _ _ Hrun) as (db & kept & _ & _ & _ & _ & Hpos & _ & Hlen & _).
  exists entries, st'. split; [exact Hrun|]. split; [exact Hpos|].
  apply Hlen. lia.
Defined.

Section RangeFacts.

Variable w : World.


End RangeFacts.



(** The range of the sample holds the last visit of each page; a call
    without an end date returns nothing. *)
Example history_by_date_range_sample :
  fst (getHistoryByDateRange sample (fun _ => 0) (JStr "2023-11-14")
         (JStr "2023-11-14") (JNum 1) initial_state)
  = inr [ {| rg_url := "https://github.com/rocq";
             rg_title := "Rocq on GitHub";
             rg_visit_date := "1699999400"; rg_visit_count := 2;
             rg_transition := 0 |} ]
  /\ fst (getHistoryByDateRange sample (fun _ => 0) (JStr "2023-11-14")
            JUndefined (JNum 1) initial_state)
     = inr [].
Proof. split; vm_compute; reflexivity. Qed.

(** ** getHistoryStats on a store with visited pages *)

Section OrderFacts.







End OrderFacts.





(** ** The dispatcher and the registry *)

(** X18.  The switch of [callTool] and the registry agree: a request ends
    in the fault [MethodNotFound] exactly when its name is not in the
    list that ListTools returns, with or without an arguments mapping. *)
Theorem method_not_found_iff_unregistered (w : World)
    (request : CallToolRequest) (st : ModuleState) :
  (exists msg st',
     callTool w request st = (inl (McpError MethodNotFound msg), st'))
  <-> ~ In (req_name request) registered_names.
Proof.
  split.
  - intros (msg & st' & Hrun) Hin. revert Hrun.
    rewrite registered_names_eq in Hin. simpl in Hin.
    destruct request as [name args]. simpl in Hin.
    destruct Hin as [<-|[<-|[<-|[<-|[<-|[<-|[]]]]]]]; unfold callTool; simpl.
    + destruct args as [args|].
      * destruct (search_history_returns w args st) as (t & s & ->).
        discriminate.
      * rewrite search_history_no_arguments. discriminate.
    + unfold get_bookmarks, ret. discriminate.
    + unfold analyze_browsing_patterns, Eff.bind, prop, ret, throw.
      destruct args; discriminate.
    + unfold export_data, Eff.bind, prop, ret, throw.
      destruct args; discriminate.
    + destruct (get_recent_browsing_returns w args st) as (t & s & ->).
      discriminate.
    + destruct (get_history_stats_returns w args st) as (t & s & ->).
      discriminate.
  - intros Hnot. exists ("Unknown tool: " +:+ req_name request), st.
    unfold callTool.
    repeat match goal with
    | |- context [String.eqb (req_name request) ?lit] =>
        destruct (String.eqb_spec (req_name request) lit) as [Heq|_];
          [exfalso; apply Hnot; rewrite Heq; vm_compute; tauto|]
    end.
    reflexivity.
Qed.

(** X19.  Leaving out an argument is the same as passing the default its
    schema declares, for [hours], [limit] and [include_visit_details] of
    get_recent_browsing, [timeframe] of analyze_browsing_patterns and
    [format] of export_data. *)
Theorem omitted_argument_is_declared_default (w : World)
    (tool key : string) (d : JsVal) (args : gmap string JsVal)
    (st : ModuleState) :
  In (tool, key)
    [ ("get_recent_browsing", "hours"); ("get_recent_browsing", "limit");
      ("get_recent_browsing", "include_visit_details");
      ("analyze_browsing_patterns", "timeframe"); ("export_data", "format") ] ->
  declared_default <$> declared tool key = Some (Some d) ->
  args !! key = None ->
  callTool w {| req_name := tool; req_arguments := Some args |} st
  = callTool w {| req_name := tool;
                  req_arguments := Some (<[key := d]> args) |} st.
Proof.
  simpl. intros [[= <- <-]|[[= <- <-]|[[= <- <-]|[[= <- <-]|[[= <- <-]|[]]]]]]
    Hd Hk; vm_compute in Hd; injection Hd as <-;
    unfold callTool; simpl.
  - unfold get_recent_browsing, try_catch, Eff.bind, prop, ret. simpl.
    rewrite lookup_insert_eq, !lookup_insert_ne, Hk by discriminate.
    reflexivity.
  - unfold get_recent_browsing, try_catch, Eff.bind, prop, ret. simpl.
    rewrite lookup_insert_eq, !lookup_insert_ne, Hk by discriminate.
    reflexivity.
  - unfold get_recent_browsing, try_catch, Eff.bind, prop, ret. simpl.
    rewrite lookup_insert_eq, !lookup_insert_ne, Hk by discriminate.
    reflexivity.
  - unfold analyze_browsing_patterns, Eff.bind, prop, ret. simpl.
    rewrite lookup_insert_eq, Hk. reflexivity.
  - unfold export_data, Eff.bind, prop, ret. simpl.
    rewrite lookup_insert_eq, Hk. reflexivity.
Qed.

Lemma omitted_argument_is_declared_default_witness :
  callTool sample
    {| req_name := "get_recent_browsing";
       req_arguments := Some {[ "hours" := JNum 200 ]} |} initial_state
  = callTool sample
      {| req_name := "get_recent_browsing";
         req_arguments :=
           Some (<["limit" := JNum 50]> {[ "hours" := JNum 200 ]}) |}
      initial_state.
Proof.
  apply (omitted_argument_is_declared_default sample "get_recent_browsing"
           "limit" (JNum 50) {[ "hours" := JNum 200 ]} initial_state).
  - right. left. reflexivity.
  - reflexivity.
  - reflexivity.
Defined.

(** X20.  The three placeholder tools never reach the data provider.
    Whatever the arguments, get_bookmarks, analyze_browsing_patterns and
    export_data leave the provider's state and trace unchanged, and their
    outcome is the same in every world: no file of the profile is read,
    and get_bookmarks answers its fixed text without calling
    [getBookmarks]. *)
Theorem placeholder_tools_touch_nothing (w w' : World)
    (request : CallToolRequest) (st : ModuleState) :
  In (req_name request)
    ["get_bookmarks"; "analyze_browsing_patterns"; "export_data"] ->
  snd (callTool w request st) = st
  /\ callTool w request st = callTool w' request st
  /\ (req_name request = "get_bookmarks"%string ->
      callTool w request st
      = (inr (text_result
           ("Placeholder: Retrieving bookmarks" +:+ nl
            +:+ "This tool will read Chrome bookmarks and organize them by folders.")),
         st)).
Proof.
  destruct request as [name args]. simpl.
  intros [<-|[<-|[<-|[]]]]; unfold callTool; simpl.
  - repeat split.
  - unfold analyze_browsing_patterns, Eff.bind, prop, ret, throw.
    destruct args; repeat split; discriminate.
  - unfold export_data, Eff.bind, prop, ret, throw.
    destruct args; repeat split; discriminate.
Qed.

Lemma placeholder_tools_touch_nothing_witness :
  snd (callTool bookmarked
         {| req_name := "get_bookmarks";
            req_arguments := Some {[ "folder" := JStr "Work" ]} |}
         initial_state)
  = initial_state.
Proof.
  apply (placeholder_tools_touch_nothing bookmarked sample
           {| req_name := "get_bookmarks";
              req_arguments := Some {[ "folder" := JStr "Work" ]} |}
           initial_state).
  left. reflexivity.
Defined.

(** ** The text of a search *)

Section TextFacts.

Variable w : World.

(** The loop over the entries appends their blocks in order, the entry
    at index [i] under the ordinal [i + 1]. *)
Lemma forEach_blocks (entries : list HistoryEntry) (index : Z)
    (resultText : string) :
  forEach (search_entry_text w) entries index resultText
  = resultText +:+ entry_blocks w (index + 1) entries.
Proof.
  revert index resultText.
  induction entries as [|e rest IH]; intros index resultText; simpl.
  - now rewrite append_empty_r.
  - rewrite IH. now rewrite append_assoc.
Qed.

End TextFacts.

(** X21.  The answer of the search_history tool lists the entries that
    [searchHistory] returned, in their order and numbered from 1.  When
    a query or a date is given and [searchHistory] returns entries, one at
    least, the text is the heading, then the block of each entry in the
    order returned, the first under the ordinal 1 and each next under the
    next ordinal, with its title (or [Untitled]), URL, date, visit count
    and domain, then the total, the truncation notice if the number of
    entries is the limit, and the date range if a date was given. *)
Theorem search_text_lists_entries (w : World) (args : gmap string JsVal)
    (st st' : ModuleState) (entries : list HistoryEntry) :
  let query := or_else (default JUndefined (args !! "query")) (JStr "") in
  let startDate := default JUndefined (args !! "start_date") in
  let endDate := default JUndefined (args !! "end_date") in
  let limit := or_else (default JUndefined (args !! "limit")) (JNum 100) in
  truthy query || truthy startDate || truthy endDate = true ->
  searchHistory w query
    {| startDate := startDate; endDate := endDate; limit := limit |} st
  = (inr entries, st') ->
  entries <> [] ->
  callTool w {| req_name := "search_history"; req_arguments := Some args |} st
  = (inr (text_result
       ((if truthy query
         then "Search results for " +:+ dq +:+ to_string query +:+ dq +:+ ":"
         else "Browsing history:")
        +:+ nl +:+ nl
        +:+ entry_blocks w 1 entries
        +:+ nl +:+ "Total results: " +:+ pretty (Z.of_nat (length entries))
        +:+ (if strict_eq_num (Z.of_nat (length entries)) limit
             then " (limited to " +:+ to_string limit +:+ " entries)"
             else "")
        +:+ date_range_line startDate endDate)),
     st').
Proof.
  intros query startDate endDate limit Hgiven Hrun Hne.
  unfold callTool, search_history. simpl.
  unfold try_catch, Eff.bind, prop, ret. simpl.
  fold query startDate endDate limit.
  assert (Hguard : negb (truthy query) && negb (truthy startDate)
                   && negb (truthy endDate) = false).
  { destruct (truthy query), (truthy startDate), (truthy endDate);
      simpl in *; congruence. }
  rewrite Hguard, Hrun. do 3 f_equal.
  unfold search_text. destruct entries as [|e rest] eqn:He; [congruence|].
  rewrite <- He. rewrite forEach_blocks. simpl (0 + 1).
  destruct (truthy query); now rewrite !append_assoc.
Qed.

Lemma search_text_lists_entries_witness :
  exists st',
    callTool sample
      {| req_name := "search_history";
         req_arguments := Some {[ "query" := JStr "o" ]} |} initial_state
    = (inr (text_result
         ("Search results for " +:+ dq +:+ "o" +:+ dq +:+ ":"
          +:+ nl +:+ nl
          +:+ entry_blocks sample 1
                (List.map (select_entry sample) (urls sample_db))
          +:+ nl +:+ "Total results: 2")),
       st').
Proof.
  eexists.
  refine (eq_trans
            (search_text_lists_entries sample {[ "query" := JStr "o" ]}
               initial_state _
               (List.map (select_entry sample) (urls sample_db)) _ _ _) _).
  - vm_compute. reflexivity.
  - vm_compute. reflexivity.
  - vm_compute. discriminate.
  - vm_compute. reflexivity.
Defined.

(** ** The folders of extracted bookmarks *)

Section FolderFacts.

Variable w : World.

(** Induction over a node and the nodes below it. *)
Lemma BookmarkNode_ind (P : BookmarkNode -> Prop) :
  (forall ty nm u d, P (Node ty nm u d None)) ->
  (forall ty nm u d children,
     Forall P children -> P (Node ty nm u d (Some children))) ->
  forall node, P node.
Proof.
  intros Hleaf Hnode. fix IH 1. intros [ty nm u d [children|]].
  - apply Hnode. induction children as [|c cs IHcs]; constructor.
    + apply IH.
    + exact IHcs.
  - apply Hleaf.
Qed.

Lemma startsWith_append (p rest : string) : startsWith (p +:+ rest) p = true.
Proof. apply startsWith_spec. now exists rest. Qed.

Lemma startsWith_trans (s p q : string) :
  startsWith s p = true -> startsWith p q = true -> startsWith s q = true.
Proof.
  rewrite !startsWith_spec. intros [x ->] [y ->]. exists (y +:+ x).
  now rewrite append_assoc.
Qed.

Lemma append_nonempty (a b : string) : a <> ""%string -> a +:+ b <> ""%string.
Proof. destruct a; [congruence | discriminate]. Qed.

(** The folder of every bookmark found below a node, for a path that is
    not empty. *)
Lemma extractBookmarks_folders (node : BookmarkNode) :
  forall folderPath,
    folderPath <> ""%string ->
    Forall
      (fun b =>
         folder b = folderPath
         \/ startsWith (folder b) (folderPath +:+ "/") = true)
      (extractBookmarks w node folderPath).
Proof.
  induction node as [ty nm u d | ty nm u d children IH]
    using BookmarkNode_ind; intros folderPath Hne.
  - constructor.
  - rewrite extractBookmarks_children. simpl node_children.
    apply List.Forall_forall. intros b Hb.
    apply List.in_flat_map in Hb as (child & Hchild & Hb).
    rewrite List.Forall_forall in IH.
    unfold visit_child in Hb.
    destruct (is_type "url" child).
    + destruct Hb as [<-|[]]. left. simpl. unfold folder_or_root.
      apply String.eqb_neq in Hne. now rewrite Hne.
    + destruct (is_type "folder" child); [|destruct Hb].
      assert (Hnew : newFolderPath folderPath (node_name child)
                     = folderPath +:+ "/" +:+ name_to_string (node_name child)).
      { unfold newFolderPath. apply String.eqb_neq in Hne. now rewrite Hne. }
      rewrite Hnew in Hb.
      set (name := name_to_string (node_name child)) in *.
      pose proof (IH child Hchild (folderPath +:+ "/" +:+ name)
                    (append_nonempty folderPath ("/" +:+ name) Hne)) as Hall.
      rewrite List.Forall_forall in Hall.
      assert (Hpre : startsWith (folderPath +:+ "/" +:+ name)
                       (folderPath +:+ "/") = true).
      { rewrite <- append_assoc. apply startsWith_append. }
      right. destruct (Hall b Hb) as [-> | Hdeep]; [exact Hpre|].
      eapply startsWith_trans; [exact Hdeep|].
      eapply startsWith_trans; [apply startsWith_append | exact Hpre].
Qed.

(** No bookmark has an empty folder. *)
Lemma extractBookmarks_folder_nonempty (node : BookmarkNode) :
  forall folderPath,
    Forall (fun b => folder b <> ""%string)
      (extractBookmarks w node folderPath).
Proof.
  induction node as [ty nm u d | ty nm u d children IH]
    using BookmarkNode_ind; intros folderPath.
  - constructor.
  - rewrite extractBookmarks_children. simpl node_children.
    apply List.Forall_forall. intros b Hb.
    apply List.in_flat_map in Hb as (child & Hchild & Hb).
    rewrite List.Forall_forall in IH.
    unfold visit_child in Hb.
    destruct (is_type "url" child).
    + destruct Hb as [<-|[]]. simpl. unfold folder_or_root.
      destruct (String.eqb_spec folderPath ""); [discriminate | assumption].
    + destruct (is_type "folder" child); [|destruct Hb].
      pose proof (IH child Hchild (newFolderPath folderPath (node_name child)))
        as Hall.
      rewrite List.Forall_forall in Hall. auto.
Qed.

Lemma includes_ci_prefix (s p : string) :
  startsWith s p = true -> includes_ci s p = true.
Proof.
  rewrite startsWith_spec. intros [rest ->].
  apply includes_ci_spec. exists ""%string, p, rest. split; reflexivity.
Qed.

End FolderFacts.

(** X22.  Every bookmark that [extractBookmarks] finds is filed under a
    folder that is never empty; and for a starting path that is not empty
    the folder is that path itself or continues it after a slash: the
    path of a bookmark always starts with the path the traversal began
    with. *)
Theorem extracted_bookmark_folders (w : World) (node : BookmarkNode)
    (folderPath : string) :
  Forall
    (fun b =>
       folder b <> ""%string
       /\ (folderPath <> ""%string ->
           folder b = folderPath
           \/ startsWith (folder b) (folderPath +:+ "/") = true))
    (extractBookmarks w node folderPath).
Proof.
  pose proof (extractBookmarks_folder_nonempty w node folderPath) as Hne.
  rewrite List.Forall_forall in *. intros b Hb. split; [auto|].
  intros Hpath.
  pose proof (extractBookmarks_folders w node folderPath Hpath) as Hf.
  rewrite List.Forall_forall in Hf. auto.
Qed.

(** X23.  Asking [getBookmarks] for the name of a root returns every
    bookmark below that root.  When the Bookmarks file is read and has a
    root of that name, all bookmarks extracted from this root are in the
    result. *)
Theorem getBookmarks_of_a_root (w : World) (st st' : ModuleState)
    (bookmarksData : BookmarksData)
    (entries : list (string * BookmarkNode))
    (rootName : string) (rootData : BookmarkNode) :
  (called CallGetBookmarks;; readBookmarks w) st = (inr bookmarksData, st') ->
  roots bookmarksData = Some entries ->
  In (rootName, rootData) entries ->
  rootName <> ""%string ->
  exists bookmarks,
    getBookmarks w (Some rootName) st = (inr bookmarks, st')
    /\ forall b,
         In b (root_bookmarks w (rootName, rootData)) -> In b bookmarks.
Proof.
  intros Hread Hroots Hin Hne. rewrite getBookmarks_eq, Hread.
  eexists. split; [reflexivity|]. intros b Hb.
  apply List.filter_In. split.
  - unfold all_bookmarks. rewrite Hroots. apply List.in_flat_map. eauto.
  - unfold root_bookmarks in Hb.
    destruct (node_children rootData); [|destruct Hb].
    pose proof (extractBookmarks_folders w rootData rootName Hne) as Hf.
    rewrite List.Forall_forall in Hf.
    destruct (Hf b Hb) as [-> | Hdeep].
    + apply includes_ci_prefix. rewrite <- (append_empty_r rootName) at 1.
      apply startsWith_append.
    + apply includes_ci_prefix.
      eapply startsWith_trans; [exact Hdeep | apply startsWith_append].
Qed.

Lemma getBookmarks_of_a_root_witness :
  exists bookmarks,
    getBookmarks bookmarked (Some "bookmark_bar") initial_state
    = (inr bookmarks,
       located [CallLocateChromeProfile; CallReadBookmarks; CallGetBookmarks])
    /\ In {| bm_title := Some "X"; bm_url := Some "http://x";
             dateAdded := None; folder := "bookmark_bar/Work" |} bookmarks.
Proof.
  assert (Hread :
    (called CallGetBookmarks;; readBookmarks bookmarked) initial_state
    = (inr (example_bookmarks (Some "13300000000000000")),
       located [CallLocateChromeProfile; CallReadBookmarks; CallGetBookmarks]))
    by (vm_compute; reflexivity).
  destruct (getBookmarks_of_a_root bookmarked initial_state _
              (example_bookmarks (Some "13300000000000000")) _
              "bookmark_bar"
              {| node_type := None; node_name := None; node_url := None;
                 node_date_added := None;
                 node_children :=
                   Some [ to_node
                            (Folder "Work"
                               [Leaf "X" "http://x"
                                     (Some "13300000000000000")]) ] |}
              Hread eq_refl)
    as (bookmarks & Hrun & Hall).
  - left. reflexivity.
  - discriminate.
  - exists bookmarks. split; [exact Hrun|]. apply Hall.
    left. reflexivity.
Defined.

(** X24.  The folder filter of [getBookmarks] ignores the case of its
    argument: two targets that are equal up to case give the same
    outcome. *)
Theorem getBookmarks_target_case (w : World) (t t' : string)
    (st : ModuleState) :
  toLowerCase t = toLowerCase t' ->
  getBookmarks w (Some t) st = getBookmarks w (Some t') st.
Proof.
  intros Ht. rewrite !getBookmarks_eq.
  destruct ((called CallGetBookmarks;; readBookmarks w) st)
    as [[e|data] st1]; [reflexivity|].
  unfold includes_ci. now rewrite Ht.
Qed.

Lemma getBookmarks_target_case_witness :
  getBookmarks bookmarked (Some "WORK") initial_state
  = getBookmarks bookmarked (Some "work") initial_state.
Proof.
  apply (getBookmarks_target_case bookmarked "WORK" "work" initial_state).
  reflexivity.
Defined.

(** ** getProfileInfo *)

Section ProfileInfoFacts.

Variable w : World.




End ProfileInfoFacts.



(** ** The two time conversions *)

(** X26.  The date filter and the listed dates agree.  [searchHistory]
    turns the bounds into Chrome time in JavaScript (milliseconds since
    1970 to microseconds since 1601) and the SELECT turns a row's Chrome
    time back into Unix seconds for [datetime]; the two use the same
    epoch, so the second listed for a row inside the range is not before
    the second of the start bound and, for a row with a visit time, not
    after the second of the end bound. *)
Theorem date_range_bounds_listed_seconds (w : World)
    (options : SearchOptions) (t : Z) :
  in_date_range w options t ->
  (forall d,
     truthy (startDate options) = true ->
     date_parse w (to_string (startDate options) +:+ "T00:00:00") = Some d ->
     epoch_1601_ms <= d ->
     d / 1000 <= unix_seconds t)
  /\ (forall d,
        truthy (endDate options) = true ->
        date_parse w (to_string (endDate options) +:+ "T23:59:59.999")
          = Some d ->
        0 <= t ->
        unix_seconds t <= d / 1000).
Proof.
  intros [Hstart Hend]. unfold unix_seconds, epoch_1601_s. split.
  - intros d Ht Hd Hle. destruct (Hstart Ht) as (s & Hs & Hst).
    unfold startTimestamp in Hs. rewrite Hd in Hs. simpl in Hs.
    injection Hs as <-. unfold epoch_1601_ms in *.
    rewrite Z.quot_div_nonneg by lia.
    assert (H : (d + 11644473600000) / 1000 <= t / 1000000).
    { apply Z.div_le_lower_bound; [lia|].
      pose proof (Z.mul_div_le (d + 11644473600000) 1000).
      pose proof (Z.mul_div_le t 1000000).
      pose proof (Z.mod_pos_bound t 1000000).
      pose proof (Z.div_mod t 1000000).
      pose proof (Z.mod_pos_bound (d + 11644473600000) 1000).
      pose proof (Z.div_mod (d + 11644473600000) 1000). lia. }
    replace (d + 11644473600000) with (d + 11644473600 * 1000) in H by lia.
    rewrite Z.div_add in H by lia. lia.
  - intros d Ht Hd Hpos. destruct (Hend Ht) as (e & He & Hte).
    unfold endTimestamp in He. rewrite Hd in He. simpl in He.
    injection He as <-. unfold epoch_1601_ms in *.
    rewrite Z.quot_div_nonneg by lia.
    assert (H : t / 1000000 <= (d + 11644473600000) / 1000).
    { apply Z.div_le_lower_bound; [lia|].
      pose proof (Z.mul_div_le t 1000000).
      pose proof (Z.mod_pos_bound t 1000000).
      pose proof (Z.div_mod t 1000000).
      lia. }
    replace (d + 11644473600000) with (d + 11644473600 * 1000) in H by lia.
    rewrite Z.div_add in H by lia. lia.
Qed.

Lemma date_range_bounds_listed_seconds_witness :
  1699920000000 / 1000 <= unix_seconds 13344472000000000
  /\ unix_seconds 13344472000000000 <= 1700006399999 / 1000.
Proof.
  set (options := {| startDate := JStr "2023-11-14";
                     endDate := JStr "2023-11-14";
                     limit := JUndefined |}).
  assert (Hin : in_date_range sample options 13344472000000000).
  { split; intros _; eexists; (split; [vm_compute; reflexivity | lia]). }
  destruct (date_range_bounds_listed_seconds sample options _ Hin)
    as [Hstart Hend].
  split.
  - apply Hstart; [reflexivity | vm_compute; reflexivity | vm_compute; discriminate].
  - apply Hend; [reflexivity | vm_compute; reflexivity | lia].
Defined.
